(** * Automated Insight Engine: the analytical pipeline of [etl_logic.py]
      and its caller [process_data] of [ingestion_service.py].

    The Python code is embedded shallowly.  A Polars [DataFrame] is a list
    of rows, a [Float64] is a binary64 primitive float, a nullable column
    holds [option] values, an exception is a value of [exn] carried by the
    [Raise] branch of the pipeline monad, and everything the code reaches
    outside itself (the environment, the clock, scikit-learn's estimator,
    the text-generation client, the PDF renderer, the CSV reader) is a
    field of a [World]. *)

From Stdlib Require Import ZArith Floats String Ascii List Bool Lia.
From Stdlib Require Import Sorting.Sorted Permutation DecimalString.
Import ListNotations.

Set Warnings "-inexact-float".

Local Open Scope Z_scope.
Local Open Scope string_scope.

(** ** Python strings *)

Module PyStr.

Definition dquote : string := String (ascii_of_nat 34) EmptyString.
Definition newline : string := String (ascii_of_nat 10) EmptyString.

(** [str(z)] of a Python int. *)
Definition of_Z (z : Z) : string := NilZero.string_of_int (Z.to_int z).

Definition of_nat (n : nat) : string := of_Z (Z.of_nat n).

(** [str(z).rjust(width, '0')] for a non-negative [z]. *)
Fixpoint zeros (n : nat) : string :=
  match n with
  | O => EmptyString
  | S k => String "0"%char (zeros k)
  end.

Definition zfill (width : nat) (z : Z) : string :=
  let s := of_Z z in zeros (width - String.length s) ++ s.

(** [s.replace(old, new)]: every non-overlapping occurrence, scanning
    from the left.  [skip] counts the characters of a match still to be
    dropped. *)
Fixpoint replace_from (old new : string) (skip : nat) (s : string) : string :=
  match s with
  | EmptyString => EmptyString
  | String c s' =>
      match skip with
      | S k => replace_from old new k s'
      | O =>
          if String.prefix old s
          then new ++ replace_from old new (String.length old - 1) s'
          else String c (replace_from old new 0 s')
      end
  end.

Definition replace (old new s : string) : string := replace_from old new 0 s.

Definition is_slash (c : ascii) : bool := Ascii.eqb c "/"%char.

(** [(p[:i], p[i:])] with [i = p.rfind('/') + 1]. *)
Fixpoint rsplit_slash (p : string) : string * string :=
  match p with
  | EmptyString => (EmptyString, EmptyString)
  | String c p' =>
      let (h, t) := rsplit_slash p' in
      match h with
      | String _ _ => (String c h, t)
      | EmptyString =>
          if is_slash c then (String c EmptyString, p')
          else (EmptyString, String c p')
      end
  end.

Fixpoint all_slashes (s : string) : bool :=
  match s with
  | EmptyString => true
  | String c s' => is_slash c && all_slashes s'
  end.

(** [s.rstrip('/')]. *)
Fixpoint rstrip_slash (s : string) : string :=
  match s with
  | EmptyString => EmptyString
  | String c s' =>
      match rstrip_slash s' with
      | EmptyString => if is_slash c then EmptyString else String c EmptyString
      | rest => String c rest
      end
  end.

(** [os.path.basename], [os.path.dirname] and [os.path.join] of
    [posixpath]. *)
Definition basename (p : string) : string := snd (rsplit_slash p).

Definition dirname (p : string) : string :=
  let head := fst (rsplit_slash p) in
  match head with
  | EmptyString => head
  | _ => if all_slashes head then head else rstrip_slash head
  end.

Fixpoint ends_with_slash (s : string) : bool :=
  match s with
  | EmptyString => false
  | String c EmptyString => is_slash c
  | String _ s' => ends_with_slash s'
  end.

Definition join (a b : string) : string :=
  match b with
  | String c _ =>
      if is_slash c then b
      else match a with
           | EmptyString => b
           | _ => if ends_with_slash a then a ++ b else a ++ "/" ++ b
           end
  | EmptyString =>
      match a with
      | EmptyString => b
      | _ => if ends_with_slash a then a else a ++ "/"
      end
  end.

(** [str.strip()] removes the code points for which [str.isspace()]
    holds.  A [str] is held as its UTF-8 bytes, so a white-space code
    point is one, two or three bytes long. *)

(** U+0009..U+000D, U+001C..U+0020. *)
Definition is_space (c : ascii) : bool :=
  let n := nat_of_ascii c in
  ((9 <=? n)%nat && (n <=? 13)%nat) || ((28 <=? n)%nat && (n <=? 32)%nat).

(** U+0085 and U+00A0. *)
Definition is_space2 (c1 c2 : ascii) : bool :=
  let n1 := nat_of_ascii c1 in
  let n2 := nat_of_ascii c2 in
  (n1 =? 194)%nat && ((n2 =? 133)%nat || (n2 =? 160)%nat).

(** U+1680, U+2000..U+200A, U+2028, U+2029, U+202F, U+205F, U+3000. *)
Definition is_space3 (c1 c2 c3 : ascii) : bool :=
  let n1 := nat_of_ascii c1 in
  let n2 := nat_of_ascii c2 in
  let n3 := nat_of_ascii c3 in
  ((n1 =? 225)%nat && (n2 =? 154)%nat && (n3 =? 128)%nat)
  || ((n1 =? 226)%nat && (n2 =? 128)%nat
      && (((128 <=? n3)%nat && (n3 <=? 138)%nat)
          || (n3 =? 168)%nat || (n3 =? 169)%nat || (n3 =? 175)%nat))
  || ((n1 =? 226)%nat && (n2 =? 129)%nat && (n3 =? 159)%nat)
  || ((n1 =? 227)%nat && (n2 =? 128)%nat && (n3 =? 128)%nat).

Section Front.

(** The white-space tests on one, two and three bytes, in the order in
    which the bytes are met. *)
Variable p1 : ascii -> bool.
Variable p2 : ascii -> ascii -> bool.
Variable p3 : ascii -> ascii -> ascii -> bool.

(** Does the string begin with a white-space code point? *)
Definition front_is_space (s : string) : bool :=
  match s with
  | EmptyString => false
  | String c1 r =>
      p1 c1
      || match r with
         | EmptyString => false
         | String c2 r' =>
             p2 c1 c2
             || match r' with
                | EmptyString => false
                | String c3 _ => p3 c1 c2 c3
                end
         end
  end.

Fixpoint strip_front (s : string) : string :=
  match s with
  | EmptyString => EmptyString
  | String c1 r =>
      if p1 c1 then strip_front r
      else
        match r with
        | EmptyString => s
        | String c2 r' =>
            if p2 c1 c2 then strip_front r'
            else
              match r' with
              | EmptyString => s
              | String c3 r'' => if p3 c1 c2 c3 then strip_front r'' else s
              end
        end
  end.

End Front.

Fixpoint rev (s : string) : string :=
  match s with
  | EmptyString => EmptyString
  | String c s' => rev s' ++ String c EmptyString
  end.

Definition lstrip (s : string) : string :=
  strip_front is_space is_space2 is_space3 s.

(** From the right the bytes of a code point are met last byte first. *)
Definition rstrip (s : string) : string :=
  rev (strip_front is_space
         (fun c2 c1 => is_space2 c1 c2)
         (fun c3 c2 c1 => is_space3 c1 c2 c3)
         (rev s)).

Definition strip (s : string) : string := rstrip (lstrip s).

(** [str(x)] of an optional string inside an f-string. *)
Definition of_opt (o : option string) : string :=
  match o with
  | Some s => s
  | None => "None"
  end.

End PyStr.

(** ** Float64 *)

Module F64.

Local Open Scope float_scope.

(** Conversion of an integer, rounding to nearest-even beyond 2^53. *)
Definition of_Z (z : Z) : float :=
  SF2Prim (binary_normalize prec emax z 0 false).

(** Rounding to an integral value, halves away from zero. *)
Definition round_half_away (x : float) : float :=
  match Prim2SF x with
  | S754_finite s m e =>
      match e with
      | Zneg k =>
          let d := Z.pow_pos 2 k in
          let q := (Zpos m / d)%Z in
          let r := (Zpos m mod d)%Z in
          let n := if (d <=? 2 * r)%Z then (q + 1)%Z else q in
          if s then - of_Z n else of_Z n
      | _ => x
      end
  | _ => x
  end.

(** Polars' [round(decimals)] on a Float64 value: scale by the power of
    ten, round to an integral value, scale back. *)
Definition round (decimals : nat) (x : float) : float :=
  let multiplier := of_Z (10 ^ Z.of_nat decimals) in
  round_half_away (x * multiplier) / multiplier.

(** Column sum, accumulated from the left and starting at zero. *)
Definition sum (xs : list float) : float := fold_left add xs 0.

(** The float sum kernel of Polars, over any addition: the rows that do
    not fill a block of 128 come first and are added from the left; the
    blocks are added pairwise, each block in 16 stripes that are folded
    onto themselves. *)
Section Kernel.

Context {T : Type} (plus : T -> T -> T) (zero : T).

(** [v[j] += w[j]] on every lane. *)
Definition add_lanes (v w : list T) : list T :=
  map (fun p => plus (fst p) (snd p)) (combine v w).

(** The upper half of the lanes added onto the lower half. *)
Definition halve (v : list T) : list T :=
  add_lanes (firstn (length v / 2) v) (skipn (length v / 2) v).

(** 16 lanes are halved to 8, then to 4; the last four are added as
    [(e0 + e2) + (e1 + e3)]. *)
Definition vector_horizontal_sum (v : list T) : T :=
  match halve (halve v) with
  | [e0; e1; e2; e3] => plus (plus e0 e2) (plus e1 e3)
  | _ => zero
  end.

Fixpoint chunks (n fuel : nat) (l : list T) : list (list T) :=
  match fuel with
  | O => []
  | S fuel' =>
      match l with
      | [] => []
      | _ :: _ => firstn n l :: chunks n fuel' (skipn n l)
      end
  end.

Definition sum_block_vectorized (block : list T) : T :=
  vector_horizontal_sum
    (fold_left add_lanes (chunks 16 8 block) (repeat zero 16)).

Fixpoint pairwise_sum (fuel : nat) (blocks : list (list T)) : T :=
  match fuel with
  | O => zero
  | S fuel' =>
      match blocks with
      | [] => zero
      | [block] => sum_block_vectorized block
      | _ =>
          let left_block_count := (length blocks / 2)%nat in
          plus (pairwise_sum fuel' (firstn left_block_count blocks))
               (pairwise_sum fuel' (skipn left_block_count blocks))
      end
  end.

Definition sum_kernel (f : list T) : T :=
  let remainder := (length f mod 128)%nat in
  let rest := firstn remainder f in
  let main := skipn remainder f in
  let mainsum :=
    if (128 <=? length f)%nat
    then pairwise_sum (length f) (chunks 128 (length f) main)
    else zero in
  plus mainsum (fold_left plus rest zero).

(** The sum of one group of a slice-grouped frame: a group of one row is
    that row's value, a larger group goes through the kernel. *)
Definition group_sum_with (xs : list T) : T :=
  match xs with
  | [x] => x
  | _ => sum_kernel xs
  end.

End Kernel.

(** [pl.col(...).sum()] over the rows of one window. *)
Definition group_sum (xs : list float) : float := group_sum_with add 0 xs.

(** The integer nearest to [m * 2^e * 100], ties to even: the digits of
    Python's correctly rounded ['.2f']. *)
Definition cents (m : positive) (e : Z) : Z :=
  match e with
  | Zneg k =>
      let d := Z.pow_pos 2 k in
      let q := (Zpos m * 100 / d)%Z in
      let r := ((Zpos m * 100) mod d)%Z in
      if (d <? 2 * r)%Z then (q + 1)%Z
      else if (d =? 2 * r)%Z then (if Z.even q then q else q + 1)%Z
      else q
  | _ => (Zpos m * 2 ^ e * 100)%Z
  end.

Definition sign_str (s : bool) : string := if s then "-"%string else EmptyString.

(** [format(x, '.2f')]. *)
Definition format_2f (x : float) : string :=
  match Prim2SF x with
  | S754_nan => "nan"%string
  | S754_infinity s => (sign_str s ++ "inf")%string
  | S754_zero s => (sign_str s ++ "0.00")%string
  | S754_finite s m e =>
      let n := cents m e in
      (sign_str s ++ PyStr.of_Z (n / 100) ++ "." ++ PyStr.zfill 2 (n mod 100))%string
  end.

End F64.

(** ** Calendar dates

    A [pl.Date] is a number of days since 1970-01-01. *)

Module PyDate.

(** Proleptic Gregorian (year, month, day) of a day number. *)
Definition civil (days : Z) : Z * Z * Z :=
  let z := days + 719468 in
  let era := z / 146097 in
  let doe := z - era * 146097 in
  let yoe := (doe - doe / 1460 + doe / 36524 - doe / 146096) / 365 in
  let doy := doe - (365 * yoe + yoe / 4 - yoe / 100) in
  let mp := (5 * doy + 2) / 153 in
  let d := doy - (153 * mp + 2) / 5 + 1 in
  let m := if (mp <? 10)%Z then mp + 3 else mp - 9 in
  let y := yoe + era * 400 + (if (m <=? 2)%Z then 1 else 0) in
  (y, m, d).

(** [str(date)]: ISO format YYYY-MM-DD. *)
Definition isoformat (days : Z) : string :=
  let '(y, m, d) := civil days in
  PyStr.zfill 4 y ++ "-" ++ PyStr.zfill 2 m ++ "-" ++ PyStr.zfill 2 d.

(** Start of the weekly window holding [days]: windows of [every="1w"]
    begin on Monday, and day 0 is a Thursday. *)
Definition week_start (days : Z) : Z := days - (days + 3) mod 7.

End PyDate.

(** ** Exceptions, effects and the pipeline monad *)

Inductive exn_class : Type :=
| TypeError | ValueError | IndexError | AttributeError | OSError
| ComputeError | InvalidOperationError | ShapeError.

(** An exception: its class and [str(e)]. *)
Record exn : Type := Exn { exn_cls : exn_class; exn_str : string }.

(** [type(e).__name__] *)
Definition exn_class_name (c : exn_class) : string :=
  match c with
  | TypeError => "TypeError"
  | ValueError => "ValueError"
  | IndexError => "IndexError"
  | AttributeError => "AttributeError"
  | OSError => "OSError"
  | ComputeError => "ComputeError"
  | InvalidOperationError => "InvalidOperationError"
  | ShapeError => "ShapeError"
  end.

Inductive outcome (A : Type) : Type :=
| Return (a : A)
| Raise (e : exn).
Arguments Return {A} a.
Arguments Raise {A} e.

(** What a run leaves behind: the lines printed, the files written
    (path and content) and the requests sent to the text-generation
    service (model and prompt), each in the order of occurrence. *)
Record Effects : Type := mkEffects {
  stdout : list string;
  files : list (string * string);
  requests : list (string * string)
}.

Definition no_effects : Effects := mkEffects [] [] [].

Definition Py (A : Type) : Type := Effects -> outcome A * Effects.

Definition ret {A} (a : A) : Py A := fun fx => (Return a, fx).

Definition raise {A} (e : exn) : Py A := fun fx => (Raise e, fx).

Definition bind {A B} (c : Py A) (k : A -> Py B) : Py B :=
  fun fx =>
    match c fx with
    | (Return a, fx') => k a fx'
    | (Raise e, fx') => (Raise e, fx')
    end.

Notation "x <- c ;; k" := (bind c (fun x => k))
  (at level 61, c at next level, right associativity).
Notation "c ;;; k" := (bind c (fun _ => k))
  (at level 61, right associativity).

(** The outcome of a call into a library, with no effect of its own. *)
Definition lift {A} (o : outcome A) : Py A := fun fx => (o, fx).

Definition printed (line : string) (fx : Effects) : Effects :=
  mkEffects (stdout fx ++ [line]) (files fx) (requests fx).

Definition print (line : string) : Py unit :=
  fun fx => (Return tt, printed line fx).

(** [try: body / except Exception as e: handler e]. *)
Definition try_except {A} (body : Py A) (handler : exn -> Py A) : Py A :=
  fun fx =>
    match body fx with
    | (Return a, fx') => (Return a, fx')
    | (Raise e, fx') => handler e fx'
    end.

(** A computation that writes no file. *)
Definition keeps_files {A} (c : Py A) : Prop :=
  forall fx, files (snd (c fx)) = files fx.

Fixpoint mapM {A B} (f : A -> Py B) (l : list A) : Py (list B) :=
  match l with
  | [] => ret []
  | x :: xs => y <- f x ;; ys <- mapM f xs ;; ret (y :: ys)
  end.

(** ** Data model *)

(** One row of the ingested frame, columns as in [EXPECTED_SCHEMA]. *)
Record Row : Type := mkRow {
  Date : Z;
  Campaign_ID : Z;
  Spend : float;
  Impressions : Z;
  Conversions : Z;
  Location : option string
}.

Definition DataFrame : Type := list Row.

(** One row of [df_weekly]; the change column is nullable. *)
Record WeeklyRow : Type := mkWeekly {
  Week_Date : Z;
  Weekly_Spend : float;
  WoW_Change_pct : option float
}.

(** One row of [anomalies_summary]. *)
Record SummaryRow : Type := mkSummary {
  Summary_Location : option string;
  Anomaly_Count : Z;
  Avg_Anomaly_Spend : float
}.

Definition opt_string_eqb (a b : option string) : bool :=
  match a, b with
  | Some x, Some y => String.eqb x y
  | None, None => true
  | _, _ => false
  end.

(** ** The world outside the code *)

Record World : Type := mkWorld {
  (** [os.getenv] *)
  getenv : string -> option string;
  (** [datetime.now().strftime('%Y-%m-%d %H:%M:%S')] *)
  now_strftime : string;
  (** the labels [IsolationForest(contamination, random_state)] gives a
      matrix it accepts, or its failure *)
  fit_predict : float -> Z -> list (list float) -> outcome (list Z);
  (** the order in which [group_by] (without [maintain_order]) followed by
      a sort that keeps no order among equal keys hands out the groups,
      given their keys in order of first appearance *)
  group_order : list (option string) -> list (option string);
  group_order_perm : forall keys, Permutation (group_order keys) keys;
  (** [DataFrame.write_json(row_oriented=True)] of a summary *)
  write_json : list SummaryRow -> string;
  (** [genai.Client()] *)
  genai_Client : outcome unit;
  (** [client.models.generate_content(model, contents).text] *)
  generate_content : string -> string -> outcome (option string);
  (** [HTML(string).write_pdf(path)] *)
  write_pdf : string -> string -> outcome unit;
  (** [pl.read_csv(path, dtypes=EXPECTED_SCHEMA)] *)
  read_csv : string -> outcome DataFrame
}.

(** ** Generic frame operations *)

(** Stable insertion sort by a boolean order. *)
Fixpoint insert_by {A} (le : A -> A -> bool) (x : A) (l : list A) : list A :=
  match l with
  | [] => [x]
  | y :: ys => if le x y then x :: l else y :: insert_by le x ys
  end.

Fixpoint sort_by {A} (le : A -> A -> bool) (l : list A) : list A :=
  match l with
  | [] => []
  | x :: xs => insert_by le x (sort_by le xs)
  end.

(** Keys in order of first appearance. *)
Fixpoint distinct (keys : list (option string)) : list (option string) :=
  match keys with
  | [] => []
  | k :: ks => k :: filter (fun k' => negb (opt_string_eqb k k')) (distinct ks)
  end.

(** [col.shift(1)]: every value moves one row down, the first is null. *)
Definition shift1 {A} (col : list (option A)) : list (option A) :=
  match col with
  | [] => []
  | _ :: _ => None :: removelast col
  end.

Fixpoint is_sorted (l : list Z) : bool :=
  match l with
  | x :: (y :: _) as rest => (x <=? y)%Z && is_sorted rest
  | _ => true
  end.

(** ** 1. Core transformation and WoW metrics *)

Module Aggregator.

(** The weekly windows that hold rows, each with its rows, for an index
    column in ascending order: rows of one window are adjacent. *)
Fixpoint windows (df : DataFrame) : list (Z * DataFrame) :=
  match df with
  | [] => []
  | r :: rest =>
      let w := PyDate.week_start (Date r) in
      match windows rest with
      | (w', g) :: ws => if (w =? w')%Z then (w, r :: g) :: ws
                         else (w, [r]) :: (w', g) :: ws
      | [] => [(w, [r])]
      end
  end.

(** [df.group_by_dynamic("Date", every="1w")]: the index column has to
    be sorted in ascending order, Polars refuses the frame otherwise. *)
Definition group_by_dynamic (df : DataFrame) : Py (list (Z * DataFrame)) :=
  if is_sorted (map Date df) then ret (windows df)
  else raise (Exn InvalidOperationError
                "argument in operation 'group_by_dynamic' is not sorted, please sort the 'expr/series/column' first").

(** [.agg(pl.col("Spend").sum().alias("Weekly_Spend"))] *)
Definition agg_weekly_spend (groups : list (Z * DataFrame)) : list (Z * float) :=
  map (fun g => (fst g, F64.group_sum (map Spend (snd g)))) groups.

(** [.sort("Date")] *)
Definition sort_Date (rows : list (Z * float)) : list (Z * float) :=
  sort_by (fun a b => (fst a <=? fst b)%Z) rows.

(** [((cur / prev - 1) * 100).round(2)], null as soon as an operand is. *)
Definition wow_change (cur prev : option float) : option float :=
  match cur, prev with
  | Some c, Some p => Some (F64.round 2 ((c / p - 1) * 100)%float)
  | _, _ => None
  end.

(** [df_weekly.with_columns(... .alias("WoW_Change_%"))] *)
Definition with_wow (rows : list (Z * float)) : list WeeklyRow :=
  let spend := map (fun r => Some (snd r)) rows in
  map (fun rc => mkWeekly (fst (fst rc)) (snd (fst rc))
                   (wow_change (Some (snd (fst rc))) (snd rc)))
      (combine rows (shift1 spend)).

Definition calculate_weekly_metrics (df : DataFrame) : Py (list WeeklyRow) :=
  groups <- group_by_dynamic df ;;
  let df_weekly := sort_Date (agg_weekly_spend groups) in
  let df_weekly := with_wow df_weekly in
  print "   => Calculated Weekly WoW metrics. (First WoW value will be null/inf)" ;;;
  ret df_weekly.

End Aggregator.

(** ** 2. Anomaly detection using Isolation Forest *)

Module Detector.
Section Detector.

Context (W : World).

(** [df.select(['Spend', 'Impressions', 'Conversions']).to_numpy()] *)
Definition features_of (df : DataFrame) : list (list float) :=
  map (fun r => [Spend r; F64.of_Z (Impressions r); F64.of_Z (Conversions r)]) df.

(** What scikit-learn's input validation raises for a matrix without
    rows. *)
Definition no_samples : exn :=
  Exn ValueError
    "Found array with 0 sample(s) (shape=(0, 3)) while a minimum of 1 is required by IsolationForest.".

(** [IsolationForest(contamination, random_state).fit_predict(X)]: the
    estimator validates the matrix before it fits, and refuses one
    without rows; the labels of an accepted matrix (1 for an inlier, -1
    for an outlier) are the world's. *)
Definition IsolationForest_fit_predict (contamination : float) (random_state : Z)
    (X : list (list float)) : outcome (list Z) :=
  match X with
  | [] => Raise no_samples
  | _ :: _ => fit_predict W contamination random_state X
  end.

(** [df.with_columns(pl.lit(outlier_predictions).alias("is_anomaly"))] *)
Definition with_is_anomaly (df : DataFrame) (preds : list Z) : Py (list (Row * Z)) :=
  if (length preds =? length df)%nat then ret (combine df preds)
  else raise (Exn ShapeError
                "unable to add a column whose length differs from the height of the DataFrame").

Definition sentinel : list SummaryRow := [mkSummary None 0 0%float].

(** [pl.col("Spend").mean().round(2)]: over the rows of a hashed group
    the sum is taken from the left. *)
Definition mean_spend (g : DataFrame) : float :=
  F64.round 2 (F64.sum (map Spend g) / F64.of_Z (Z.of_nat (length g)))%float.

(** [anomaly_df.group_by(["Location"]).agg(count, mean of Spend)] *)
Definition group_by_Location (anomaly_df : DataFrame) : list SummaryRow :=
  map (fun k =>
         let g := filter (fun r => opt_string_eqb (Location r) k) anomaly_df in
         mkSummary k (Z.of_nat (length g)) (mean_spend g))
      (group_order W (distinct (map Location anomaly_df))).

(** [.sort("Anomaly_Count", descending=True)] *)
Definition sort_Anomaly_Count_desc (rows : list SummaryRow) : list SummaryRow :=
  sort_by (fun a b => (Anomaly_Count b <=? Anomaly_Count a)%Z) rows.

Definition detect_anomalies (df : DataFrame) : Py (list SummaryRow) :=
  let features := features_of df in
  outlier_predictions <- lift (IsolationForest_fit_predict 0.05%float 42 features) ;;
  tagged <- with_is_anomaly df outlier_predictions ;;
  let anomaly_df := map fst (filter (fun rp => (snd rp =? -1)%Z) tagged) in
  match anomaly_df with
  | [] =>
      print "   => No anomalies detected by Isolation Forest (Good job!)." ;;;
      ret sentinel
  | _ :: _ =>
      let anomalies_summary := sort_Anomaly_Count_desc (group_by_Location anomaly_df) in
      print ("   => Anomaly detection found " ++ PyStr.of_nat (length anomaly_df)
             ++ " outlier(s) in " ++ PyStr.of_nat (length anomalies_summary)
             ++ " location(s).") ;;;
      ret anomalies_summary
  end.

End Detector.
End Detector.

(** Lines of a triple-quoted literal, joined by line feeds. *)
Fixpoint unlines (ls : list string) : string :=
  match ls with
  | [] => EmptyString
  | [l] => l
  | l :: rest => l ++ PyStr.newline ++ unlines rest
  end.

(** ** 4. The AI analyst *)

Module Analyst.
Section Analyst.

Context (W : World).

Definition no_context : string :=
  "No anomalies detected, no external context needed.".

(** [anomalies_summary['Anomaly_Count'][0]] *)
Definition first_row (anomalies_summary : list SummaryRow) : Py SummaryRow :=
  match anomalies_summary with
  | r :: _ => ret r
  | [] => raise (Exn IndexError "index 0 is out of bounds for sequence of length 0")
  end.

Definition fetch_external_context (anomalies_summary : list SummaryRow) : Py string :=
  r <- first_row anomalies_summary ;;
  if (Anomaly_Count r =? 0)%Z then ret no_context
  else
    let location := Summary_Location r in
    ret ("External data shows that on the day(s) of the anomaly in **"
         ++ PyStr.of_opt location
         ++ "**, there was a severe thunderstorm warning, often correlated with low foot traffic and reduced ad conversion rates.").

Definition placeholder : string :=
  "AI Analysis placeholder: GEMINI_API_KEY not set. Cannot run analysis.".

(** [not os.getenv("GEMINI_API_KEY")]: unset, or set to the empty
    string. *)
Definition credential_absent : bool :=
  match getenv W "GEMINI_API_KEY" with
  | None => true
  | Some EmptyString => true
  | Some (String _ _) => false
  end.

Definition prompt_of (anomalies_data_str weather_context : string) : string :=
  unlines
    [ EmptyString;
      "    SYSTEM INSTRUCTION: You are a **Senior Data Analyst**. Your response must be extremely concise, professional, and actionable. Your analysis must not exceed 100 words. Do not include any titles or introductory phrases like 'Senior Data Analyst:'.";
      EmptyString;
      "    FEW-SHOT EXAMPLE:";
      "    Input: Anomalies detected in Location: Dallas, Avg_Anomaly_Spend: $500. External Context: Local sports team won a championship, leading to high consumer spending but low campaign-specific conversions.";
      "    Output: Dallas showed an unexpected spending spike (+15%) paired with suppressed conversions. This correlates with major local sporting events diverting user attention. **Actionable Insight:** Pause non-event-related campaigns immediately during major local events to conserve budget.";
      "    ";
      "    CURRENT DATA:";
      "    Performance Anomalies (JSON Summary): " ++ anomalies_data_str;
      "    Correlated External Data (Weather/Context): " ++ weather_context;
      "    ";
      "    TASK: Write a 1-paragraph explanation of the detected anomaly, correlating the performance drop (or spike) with the external context. Focus on the 'why' and suggest a clear, concise action.";
      "    " ].

(** The effects once a request is sent. *)
Definition requested (model contents : string) (fx : Effects) : Effects :=
  mkEffects (stdout fx) (files fx) (requests fx ++ [(model, contents)]).

(** One request to the service: it is recorded, then answers or fails. *)
Definition models_generate_content (model contents : string) : Py (option string) :=
  fun fx => (generate_content W model contents, requested model contents fx).

(** [response.text.strip()] *)
Definition text_strip (text : option string) : Py string :=
  match text with
  | Some t => ret (PyStr.strip t)
  | None => raise (Exn AttributeError "'NoneType' object has no attribute 'strip'")
  end.

Definition analysis_failed (e : exn) : string :=
  "AI Analysis failed. Please check your API key and connection. Error: " ++ exn_str e.

Definition generate_analysis (anomalies_summary : list SummaryRow) : Py string :=
  if credential_absent then ret placeholder
  else
    lift (genai_Client W) ;;;
    let anomalies_data_str := write_json W anomalies_summary in
    weather_context <- fetch_external_context anomalies_summary ;;
    let prompt := prompt_of anomalies_data_str weather_context in
    try_except
      (text <- models_generate_content "gemini-2.5-pro" prompt ;;
       text_strip text)
      (fun e => ret (analysis_failed e)).

End Analyst.
End Analyst.

(** ** 5. Reporting *)

Module Report.
Section Report.

Context (W : World).

Definition q : string := PyStr.dquote.

(** [format(None, '.2f')] raises; a float is printed with two decimals. *)
Definition format_opt_2f (v : option float) : Py string :=
  match v with
  | Some x => ret (F64.format_2f x)
  | None => raise (Exn TypeError "unsupported format string passed to NoneType.__format__")
  end.

(** One table row of the inner f-string; the fields are formatted from
    left to right. *)
Definition table_row (row : WeeklyRow) : Py string :=
  let date := PyDate.isoformat (Week_Date row) in
  let spend := F64.format_2f (Weekly_Spend row) in
  change <- format_opt_2f (WoW_Change_pct row) ;;
  ret ("<tr><td>" ++ date ++ "</td><td>$" ++ spend ++ "</td><td>" ++ change ++ "%</td></tr>").

(** The join over the rows of [df_weekly]. *)
Definition table_rows (df_weekly : list WeeklyRow) : Py string :=
  rows <- mapM table_row df_weekly ;;
  ret (String.concat EmptyString rows).

Definition html_of (ai_analysis_text rows timestamp : string) : string :=
  unlines
    [ EmptyString;
      "    <html>";
      "    <head>";
      "        <title>Weekly Performance Report</title>";
      "        <style>";
      "            body { font-family: Arial, sans-serif; padding: 20px; }";
      "            h1 { color: #007bff; border-bottom: 2px solid #eee; padding-bottom: 10px; }";
      "            h2 { color: #333; margin-top: 20px; }";
      "            .analysis { background-color: #f8f9fa; padding: 15px; border-radius: 5px; }";
      "            table { width: 100%; border-collapse: collapse; margin-top: 15px; }";
      "            th, td { border: 1px solid #ddd; padding: 8px; text-align: left; }";
      "            .footer { margin-top: 40px; font-size: 0.8em; color: #777; }";
      "        </style>";
      "    </head>";
      "    <body>";
      "        <h1>📊 Weekly Performance Report</h1>";
      "        ";
      "        <h2>🤖 AI Analyst Summary (The WHY)</h2>";
      "        <div class=" ++ q ++ "analysis" ++ q ++ ">";
      "            <p>" ++ ai_analysis_text ++ "</p>";
      "        </div>";
      EmptyString;
      "        <h2>📈 Week-over-Week Spend Change</h2>";
      "        <table>";
      "            <thead>";
      "                <tr><th>Date</th><th>Weekly Spend</th><th>WoW Change %</th></tr>";
      "            </thead>";
      "            <tbody>";
      "            " ++ rows;
      "            </tbody>";
      "        </table>";
      "        ";
      "        <div class=" ++ q ++ "footer" ++ q ++ ">";
      "            <p>Report Generated by Automated ETL Pipeline: " ++ timestamp ++ "</p>";
      "        </div>";
      "    </body>";
      "    </html>";
      "    " ].

Definition output_path_of (file_path : string) : string :=
  let output_filename := PyStr.replace ".csv" "_Report.pdf" (PyStr.basename file_path) in
  PyStr.join (PyStr.dirname file_path) output_filename.

(** [HTML(string=html_content).write_pdf(output_path)]: the file exists
    once the renderer returns. *)
Definition HTML_write_pdf (html_content output_path : string) : Py unit :=
  fun fx =>
    match write_pdf W html_content output_path with
    | Return tt =>
        (Return tt, mkEffects (stdout fx) (files fx ++ [(output_path, html_content)]) (requests fx))
    | Raise e => (Raise e, fx)
    end.

Definition generate_pdf_report (df_weekly : list WeeklyRow)
    (ai_analysis_text file_path : string) : Py unit :=
  rows <- table_rows df_weekly ;;
  let html_content := html_of ai_analysis_text rows (now_strftime W) in
  let output_path := output_path_of file_path in
  HTML_write_pdf html_content output_path ;;;
  print (PyStr.newline ++ "✅ PDF Report Generated and Saved to: " ++ output_path).

End Report.
End Report.

(** ** 3. Main ETL entry point, and its caller *)

Module Pipeline.
Section Pipeline.

Context (W : World).

Definition transform_and_analyze (df : DataFrame) (file_path : string)
  : Py (list WeeklyRow * list SummaryRow) :=
  df_weekly <- Aggregator.calculate_weekly_metrics df ;;
  anomalies_summary <- Detector.detect_anomalies W df ;;
  print "--- Starting Phase 3: AI Analysis and PDF Reporting ---" ;;;
  ai_analysis_text <- Analyst.generate_analysis W anomalies_summary ;;
  Report.generate_pdf_report W df_weekly ai_analysis_text file_path ;;;
  ret (df_weekly, anomalies_summary).

Definition general_error_line (e : exn) : string :=
  PyStr.newline ++ "❌ A general error occurred during ingestion: " ++ exn_str e.

(** The two [except] clauses of [process_data], tried in order. *)
Definition handler (file_path : string) (e : exn) : Py unit :=
  match exn_cls e with
  | ComputeError =>
      print (PyStr.newline ++ "❌ ERROR: Schema validation failed for " ++ file_path
             ++ ". Check data types.") ;;;
      print ("Details: " ++ exn_str e)
  | _ => print (general_error_line e)
  end.

(** The effects once a frame is read and announced. *)
Definition ingested (file_path : string) (df : DataFrame) (fx : Effects) : Effects :=
  printed "--- Starting Phase 2: Transformation and Anomaly Detection ---"
    (printed ("   Shape: (" ++ PyStr.of_nat (length df) ++ ", 6)")
       (printed (PyStr.newline ++ "✅ Data ingested successfully from: " ++ file_path) fx)).

(** [process_data] binds the two artifacts to local names and returns
    [None] on every path. *)
Definition process_data (file_path : string) : Py unit :=
  try_except
    (df <- lift (read_csv W file_path) ;;
     print (PyStr.newline ++ "✅ Data ingested successfully from: " ++ file_path) ;;;
     print ("   Shape: (" ++ PyStr.of_nat (length df) ++ ", 6)") ;;;
     print "--- Starting Phase 2: Transformation and Anomaly Detection ---" ;;;
     artifacts <- transform_and_analyze df file_path ;;
     ret tt)
    (handler file_path).

End Pipeline.
End Pipeline.


(** ** Vocabulary of the statements *)

(** The frame with every [Spend] multiplied by [c]. *)
Definition scale_spend (c : float) (df : DataFrame) : DataFrame :=
  map (fun r => mkRow (Date r) (Campaign_ID r) (c * Spend r)%float
                  (Impressions r) (Conversions r) (Location r)) df.

(** The [Weekly_Spend] column of a frame with a sorted index. *)
Definition weekly_totals (df : DataFrame) : list float :=
  map snd (Aggregator.sort_Date (Aggregator.agg_weekly_spend (Aggregator.windows df))).

(** Each total divided by the one before it. *)
Fixpoint quotients (totals : list float) : list float :=
  match totals with
  | prev :: (cur :: _) as rest => (cur / prev)%float :: quotients rest
  | _ => []
  end.

(** The [WoW_Change_%] column of an outcome of the aggregator. *)
Definition wow_column (o : outcome (list WeeklyRow)) : outcome (list (option float)) :=
  match o with
  | Return weekly => Return (map WoW_Change_pct weekly)
  | Raise e => Raise e
  end.

(** The rows of a frame whose date falls in the week that starts at [w]. *)
Definition rows_of_week (w : Z) (df : DataFrame) : DataFrame :=
  filter (fun r => (PyDate.week_start (Date r) =? w)%Z) df.

(** The [Date] column of an outcome of the aggregator. *)
Definition date_column (o : outcome (list WeeklyRow)) : outcome (list Z) :=
  match o with
  | Return weekly => Return (map Week_Date weekly)
  | Raise e => Raise e
  end.

(** The change that goes with a quotient [cur / prev]. *)
Definition change_of_quotient (quotient : float) : option float :=
  Some (F64.round 2 ((quotient - 1) * 100)%float).

(** A proof device: the weekly rows after the first, each computed from
    the spend before it. *)
Fixpoint chain (prev : float) (rows : list (Z * float)) : list WeeklyRow :=
  match rows with
  | [] => []
  | r :: rest =>
      mkWeekly (fst r) (snd r) (Aggregator.wow_change (Some (snd r)) (Some prev))
      :: chain (snd r) rest
  end.

(** [cur] carries the rounded percentage change from [prev]. *)
Definition change_from (prev cur : WeeklyRow) : Prop :=
  WoW_Change_pct cur
  = Some (F64.round 2 ((Weekly_Spend cur / Weekly_Spend prev - 1) * 100)%float).

(** Locations in ascending order, null first. *)
Definition location_leb (a b : option string) : bool :=
  match a, b with
  | None, _ => true
  | Some _, None => false
  | Some x, Some y => String.leb x y
  end.

(** Count descending, then location ascending. *)
Definition count_then_location (a b : SummaryRow) : bool :=
  (Anomaly_Count b <? Anomaly_Count a)%Z
  || ((Anomaly_Count a =? Anomaly_Count b)%Z
      && location_leb (Summary_Location a) (Summary_Location b)).

Fixpoint adjacent_by {A} (le : A -> A -> bool) (l : list A) : bool :=
  match l with
  | x :: (y :: _) as rest => le x y && adjacent_by le rest
  | _ => true
  end.

Definition count_desc (a b : SummaryRow) : Prop :=
  (Anomaly_Count b <= Anomaly_Count a)%Z.

(** ** A small world to run the pipeline in *)

Module Demo.

(** A stand-in for the outlier model: a row is an outlier when its
    first feature exceeds 1000, and at contamination 0 no row is. *)
Definition label (x : list float) : Z :=
  match x with
  | spend :: _ => if PrimFloat.ltb 1000 spend then -1 else 1
  | [] => 1
  end.

Definition forest (contamination : float) (random_state : Z)
    (X : list (list float)) : outcome (list Z) :=
  if PrimFloat.eqb contamination 0
  then Return (map (fun _ => 1) X)
  else Return (map label X).

(** The same model, except that away from contamination 0.05 it labels
    every row an outlier. *)
Definition other_forest (contamination : float) (random_state : Z)
    (X : list (list float)) : outcome (list Z) :=
  if PrimFloat.eqb contamination 0.05 then forest contamination random_state X
  else Return (map (fun _ => -1) X).

Definition json (rows : list SummaryRow) : string :=
  "[" ++ PyStr.of_nat (length rows) ++ " row(s)]".

Definition connection_refused : exn := Exn OSError "connection refused".

Definition row (date : Z) (spend : float) (location : string) : Row :=
  mkRow date 1 spend 1000 10 (Some location).

(** 2024-01-01 is day 19723, a Monday. *)
Definition df : DataFrame :=
  [ row 19723 100 "Miami"; row 19724 5000 "Miami"; row 19725 7000 "Dallas";
    row 19730 120 "Dallas"; row 19731 110 "Miami" ].

Definition one_row : DataFrame := [ row 19723 100 "Miami" ].

(** Nothing spent in the first week. *)
Definition idle_week : DataFrame := [ row 19723 0 "Miami"; row 19730 5 "Miami" ].

Definition quiet : DataFrame :=
  [ row 19723 100 "Miami"; row 19724 90 "Dallas"; row 19730 120 "Dallas" ].

Definition unsorted : DataFrame := [ row 19730 120 "Dallas"; row 19723 100 "Miami" ].

Definition two_weeks : DataFrame := [ row 19723 160 "Miami"; row 19730 169 "Miami" ].

(** Forty daily rows from 2024-01-01 on: thirty-eight of them spend
    between 90 and 129, the thirteenth spends 5000 in Miami and the
    twenty-sixth 7000 in Dallas. *)
Definition typical (i : nat) : Row :=
  row (19723 + Z.of_nat i) (F64.of_Z (90 + Z.of_nat i))
      (if Nat.even i then "Miami" else "Dallas").

Definition forty : DataFrame :=
  (map typical (seq 0 12) ++ [row 19735 5000 "Miami"]
   ++ map typical (seq 13 12) ++ [row 19748 7000 "Dallas"]
   ++ map typical (seq 26 14))%list.

(** Spends next to the unit in the last place of 1. *)
Definition tiny_weeks : DataFrame :=
  [ row 19723 0x1.8p-52 "Miami"; row 19730 0x1p-52 "Miami" ].

Definition csv_path : string := "./input_files/data.csv".

Definition csv (path : string) : outcome DataFrame :=
  if String.eqb path csv_path then Return one_row
  else if String.eqb path "./input_files/empty.csv" then Return []
  else Raise (Exn ComputeError "could not parse").

(** No credential in the environment. *)
Definition world : World :=
  mkWorld (fun _ => None) "2024-01-15 09:00:00" forest
    (fun keys => keys) (fun keys => Permutation_refl keys)
    json (Return tt) (fun _ _ => Raise connection_refused)
    (fun _ _ => Return tt) csv.

(** The world of [world], with the groups handed out last first. *)
Definition reversed_world : World :=
  mkWorld (fun _ => None) "2024-01-15 09:00:00" forest
    (fun keys => rev keys) (fun keys => Permutation_sym (Permutation_rev keys))
    json (Return tt) (fun _ _ => Raise connection_refused)
    (fun _ _ => Return tt) csv.

Definition other_world : World :=
  mkWorld (fun _ => None) "2024-01-15 09:00:00" other_forest
    (fun keys => keys) (fun keys => Permutation_refl keys)
    json (Return tt) (fun _ _ => Raise connection_refused)
    (fun _ _ => Return tt) csv.

(** An answer framed by a no-break space (U+00A0) and a blank on the
    left and by an em space (U+2003) and a line feed on the right. *)
Definition padded_answer : string :=
  String (ascii_of_nat 194) (String (ascii_of_nat 160)
    (" Spend spiked in Miami."
     ++ String (ascii_of_nat 226) (String (ascii_of_nat 128)
          (String (ascii_of_nat 131) PyStr.newline)))).

(** A credential is set and the service answers with padded text. *)
Definition answering_world : World :=
  mkWorld (fun name => if String.eqb name "GEMINI_API_KEY" then Some "secret" else None)
    "2024-01-15 09:00:00" forest
    (fun keys => keys) (fun keys => Permutation_refl keys)
    json (Return tt) (fun _ _ => Return (Some padded_answer))
    (fun _ _ => Return tt) csv.

(** A credential is set and the service is unreachable. *)
Definition keyed_world : World :=
  mkWorld (fun name => if String.eqb name "GEMINI_API_KEY" then Some "secret" else None)
    "2024-01-15 09:00:00" forest
    (fun keys => keys) (fun keys => Permutation_refl keys)
    json (Return tt) (fun _ _ => Raise connection_refused)
    (fun _ _ => Return tt) csv.

End Demo.

(** ** The watcher's handler *)

Module Watcher.
Section Watcher.

Context (W : World).

(** A file system event, as far as [on_created] reads it. *)
Record Event : Type := mkEvent { is_directory : bool; src_path : string }.

(** [c.lower()] on an ASCII letter; other bytes are kept. *)
Definition lower_char (c : ascii) : ascii :=
  let n := nat_of_ascii c in
  if ((65 <=? n)%nat && (n <=? 90)%nat)%bool then ascii_of_nat (n + 32) else c.

Fixpoint lower (s : string) : string :=
  match s with
  | EmptyString => EmptyString
  | String c s' => String (lower_char c) (lower s')
  end.

(** [s.endswith(suffix)] *)
Fixpoint endswith (suffix s : string) : bool :=
  if String.eqb s suffix then true
  else match s with
       | EmptyString => false
       | String _ s' => endswith suffix s'
       end.

(** [CSVHandler.on_created]; the one-second sleep has no effect that the
    run records. *)
Definition on_created (event : Event) : Py unit :=
  if (negb (is_directory event) && endswith ".csv" (lower (src_path event)))%bool
  then Pipeline.process_data W (src_path event)
  else ret tt.

End Watcher.
End Watcher.

(** ** Further vocabulary *)

(** A computation that sends no request. *)
Definition keeps_requests {A} (c : Py A) : Prop :=
  forall fx, requests (snd (c fx)) = requests fx.

(** The requests of [fx'] are those of [fx], or those and one more, to
    the model the code names. *)
Definition at_most_one_request (fx fx' : Effects) : Prop :=
  requests fx' = requests fx
  \/ exists contents, requests fx' = (requests fx ++ [("gemini-2.5-pro", contents)])%list.

(** Every row of the weekly table has a change to format. *)
Definition all_changes_present (df_weekly : list WeeklyRow) : bool :=
  forallb (fun row => match WoW_Change_pct row with Some _ => true | None => false end)
          df_weekly.

(** The rows the model labelled -1. *)
Definition flagged (df : DataFrame) (preds : list Z) : DataFrame :=
  map fst (filter (fun rp : Row * Z => (snd rp =? -1)%Z) (combine df preds)).

Definition total_count (summary : list SummaryRow) : Z :=
  fold_right Z.add 0 (map Anomaly_Count summary).

(** No occurrence of [".csv"] starts inside [name] when [tail] follows
    it. *)
Fixpoint csv_free (name tail : string) : bool :=
  match name with
  | EmptyString => true
  | String _ name' =>
      (negb (String.prefix ".csv" (name ++ tail)) && csv_free name' tail)%bool
  end.

Fixpoint has_slash (s : string) : bool :=
  match s with
  | EmptyString => false
  | String c s' => (PyStr.is_slash c || has_slash s')%bool
  end.

Definition starts_with_space (s : string) : bool :=
  PyStr.front_is_space PyStr.is_space PyStr.is_space2 PyStr.is_space3 s.

Definition ends_with_space (s : string) : bool :=
  PyStr.front_is_space PyStr.is_space
    (fun c2 c1 => PyStr.is_space2 c1 c2)
    (fun c3 c2 c1 => PyStr.is_space3 c1 c2 c3)
    (PyStr.rev s).

(** ** Scaling by a power of two *)

(** The float [x * 2^k] when nothing is lost: the exponent moves by [k]. *)
Definition shift_exp (k : Z) (x : spec_float) : spec_float :=
  match x with
  | S754_finite s m e => S754_finite s m (e + k)
  | _ => x
  end.

(** [x] is a zero, or a normal number that is still a normal number
    after its exponent has moved by [k]: [x * 2^k] neither overflows nor
    underflows. *)
Definition roomy (k : Z) (x : spec_float) : bool :=
  match x with
  | S754_zero _ => true
  | S754_finite _ m e =>
      ((Zpos (digits2_pos m) =? 53)%Z && (-1074 <=? e)%Z && (-1074 <=? e + k)%Z
       && (e <=? 971)%Z && (e + k <=? 971)%Z)%bool
  | _ => false
  end.

(** A result that does not overflow when its exponent moves by [k]. *)
Definition fits (k : Z) (r : spec_float) : Prop :=
  match r with
  | S754_finite _ _ e => e + k <= 971
  | S754_infinity _ => False
  | _ => True
  end.

(** [c] is the float [2^k]. *)
Definition is_pow2 (k : Z) (c : float) : Prop :=
  Prim2SF c = S754_finite false 4503599627370496 (k - 52).

(** [x'] is [x * 2^k], and [x] is roomy. *)
Definition scaled (k : Z) (x x' : float) : Prop :=
  roomy k (Prim2SF x) = true /\ Prim2SF x' = shift_exp k (Prim2SF x).

(** A float that is not roomy is lost. *)
Definition checked (k : Z) (x : float) : option float :=
  if roomy k (Prim2SF x) then Some x else None.

Definition checked_add (k : Z) (a b : option float) : option float :=
  match a, b with
  | Some x, Some y => checked k (x + y)%float
  | _, _ => None
  end.

(** The sum of a window, lost as soon as an operand or a partial sum is
    not roomy. *)
Definition checked_sum (k : Z) (xs : list float) : option float :=
  F64.group_sum_with (checked_add k) (Some 0%float) (map (checked k) xs).

(** Every spend, and every partial sum on the way to every weekly total,
    is roomy. *)
Definition stays_normal (k : Z) (df : DataFrame) : bool :=
  forallb (fun g => match checked_sum k (map Spend (snd g)) with
                    | Some _ => true
                    | None => false
                    end)
          (Aggregator.windows df).
(** * Properties *)

(** ** The library functions on known values *)

Example format_2f_rounds_the_exact_value :
  map F64.format_2f [1234.565; 2.675; 0.125; -0.001; 5; infinity; nan]%float
  = ["1234.57"; "2.67"; "0.12"; "-0.00"; "5.00"; "inf"; "nan"].
Proof. vm_compute. reflexivity. Qed.

Example round_to_two_decimals :
  map (F64.round 2) [-49.42148760330579; 5.6249999; 0; infinity]%float
  = [-49.42; 5.62; 0; infinity]%float.
Proof. vm_compute. reflexivity. Qed.

Example isoformat_of_days :
  map PyDate.isoformat [0; -1; 19723; 19782] = ["1970-01-01"; "1969-12-31"; "2024-01-01"; "2024-02-29"].
Proof. vm_compute. reflexivity. Qed.

Example weeks_start_on_Monday :
  map PyDate.week_start [19723; 19725; 19729; 19730; 0] = [19723; 19723; 19723; 19730; -3].
Proof. reflexivity. Qed.

Example report_path_next_to_the_input :
  Report.output_path_of "./input_files/data.csv" = "./input_files/data_Report.pdf".
Proof. vm_compute. reflexivity. Qed.

Example strip_removes_outer_white_space : PyStr.strip "  a b  " = "a b".
Proof. reflexivity. Qed.

Example strip_removes_unicode_white_space :
  PyStr.strip Demo.padded_answer = "Spend spiked in Miami.".
Proof. reflexivity. Qed.

(** A window of 130 rows of 0.1 is summed in a block of 128 and a rest of
    two; adding the rows from the left gives another float. *)
Example group_sum_in_blocks :
  F64.group_sum (repeat 0.1%float 130) = 12.999999999999998%float
  /\ F64.sum (repeat 0.1%float 130) = 12.99999999999997%float.
Proof. split; vm_compute; reflexivity. Qed.

(** ** Reasoning about the monad *)

Lemma bind_Return {A B} (c : Py A) (k : A -> Py B) fx a fx' :
  c fx = (Return a, fx') -> bind c k fx = k a fx'.
Proof. intros H. unfold bind. now rewrite H. Qed.

Lemma bind_Raise {A B} (c : Py A) (k : A -> Py B) fx e fx' :
  c fx = (Raise e, fx') -> bind c k fx = (Raise e, fx').
Proof. intros H. unfold bind. now rewrite H. Qed.

Lemma bind_print {B} (line : string) (k : unit -> Py B) fx :
  bind (print line) k fx = k tt (printed line fx).
Proof. reflexivity. Qed.

Lemma keeps_files_ret {A} (a : A) : keeps_files (ret a).
Proof. now intros fx. Qed.

Lemma keeps_files_raise {A} (e : exn) : keeps_files (@raise A e).
Proof. now intros fx. Qed.

Lemma keeps_files_lift {A} (o : outcome A) : keeps_files (lift o).
Proof. now intros fx. Qed.

Lemma keeps_files_print (line : string) : keeps_files (print line).
Proof. now intros fx. Qed.

Lemma keeps_files_bind {A B} (c : Py A) (k : A -> Py B) :
  keeps_files c -> (forall a, keeps_files (k a)) -> keeps_files (bind c k).
Proof.
  intros Hc Hk fx. unfold bind. specialize (Hc fx).
  destruct (c fx) as [[a | e] fx1]; simpl in *.
  - now rewrite Hk.
  - assumption.
Qed.

Lemma keeps_files_try {A} (body : Py A) (handler : exn -> Py A) :
  keeps_files body -> (forall e, keeps_files (handler e)) ->
  keeps_files (try_except body handler).
Proof.
  intros Hb Hh fx. unfold try_except. specialize (Hb fx).
  destruct (body fx) as [[a | e] fx1]; simpl in *.
  - assumption.
  - now rewrite Hh.
Qed.

Create HintDb effects.
#[local] Hint Resolve keeps_files_ret keeps_files_raise keeps_files_lift
  keeps_files_print keeps_files_bind keeps_files_try : effects.

Lemma keeps_files_at {A} (c : Py A) fx o fx' :
  keeps_files c -> c fx = (o, fx') -> files fx' = files fx.
Proof. intros H E. specialize (H fx). now rewrite E in H. Qed.

(** ** The stages and the files *)

Lemma calculate_weekly_metrics_keeps_files df :
  keeps_files (Aggregator.calculate_weekly_metrics df).
Proof.
  unfold Aggregator.calculate_weekly_metrics, Aggregator.group_by_dynamic.
  destruct (is_sorted (map Date df)); auto 10 with effects.
Qed.

Lemma detect_anomalies_keeps_files W df :
  keeps_files (Detector.detect_anomalies W df).
Proof.
  unfold Detector.detect_anomalies.
  apply keeps_files_bind; [auto with effects | intros preds].
  apply keeps_files_bind.
  - unfold Detector.with_is_anomaly.
    destruct (length preds =? length df)%nat; auto with effects.
  - intros tagged.
    destruct (map fst (filter _ tagged)); auto 10 with effects.
Qed.

Lemma generate_analysis_keeps_files W summary :
  keeps_files (Analyst.generate_analysis W summary).
Proof.
  unfold Analyst.generate_analysis.
  destruct (Analyst.credential_absent W); [auto with effects |].
  apply keeps_files_bind; [auto with effects | intros _].
  apply keeps_files_bind.
  - unfold Analyst.fetch_external_context.
    apply keeps_files_bind.
    + destruct summary; simpl; auto with effects.
    + intros r. destruct (Anomaly_Count r =? 0)%Z; auto with effects.
  - intros ctx. apply keeps_files_try; [| auto with effects].
    apply keeps_files_bind.
    + now intros fx.
    + intros [t |]; simpl; auto with effects.
Qed.

(** ** The first weekly row *)

Lemma with_wow_first r rows :
  Aggregator.with_wow (r :: rows)
  = mkWeekly (fst r) (snd r) None :: tl (Aggregator.with_wow (r :: rows)).
Proof. reflexivity. Qed.

Lemma calculate_weekly_metrics_Return df fx weekly fx1 :
  Aggregator.calculate_weekly_metrics df fx = (Return weekly, fx1) ->
  is_sorted (map Date df) = true
  /\ weekly = Aggregator.with_wow
                (Aggregator.sort_Date (Aggregator.agg_weekly_spend (Aggregator.windows df))).
Proof.
  unfold Aggregator.calculate_weekly_metrics, Aggregator.group_by_dynamic.
  destruct (is_sorted (map Date df)); cbv [bind ret raise print]; intros H.
  - split; [reflexivity | now inversion H].
  - discriminate.
Qed.

Lemma weekly_first_change_null df fx weekly fx1 :
  Aggregator.calculate_weekly_metrics df fx = (Return weekly, fx1) ->
  weekly <> [] ->
  exists b rest, weekly = b :: rest /\ WoW_Change_pct b = None.
Proof.
  intros H Hne. apply calculate_weekly_metrics_Return in H as [_ ->].
  destruct (Aggregator.sort_Date _) as [| r rows].
  - now contradiction Hne.
  - rewrite with_wow_first. now eexists _, _.
Qed.

Lemma table_rows_null_change b rest fx :
  WoW_Change_pct b = None ->
  Report.table_rows (b :: rest) fx
  = (Raise (Exn TypeError "unsupported format string passed to NoneType.__format__"), fx).
Proof.
  intros H. unfold Report.table_rows, Report.table_row. simpl.
  rewrite H. reflexivity.
Qed.

Lemma generate_pdf_report_null_change W b rest text file_path fx :
  WoW_Change_pct b = None ->
  Report.generate_pdf_report W (b :: rest) text file_path fx
  = (Raise (Exn TypeError "unsupported format string passed to NoneType.__format__"), fx).
Proof.
  intros H. unfold Report.generate_pdf_report.
  apply bind_Raise. now apply table_rows_null_change.
Qed.

(** ** C2 *)

(** C2: whenever the aggregator yields at least one weekly row, the change
    of the first row is null, the report stage raises a [TypeError] while
    formatting the table (['.2f'] is applied to that null) and writes
    nothing, and [transform_and_analyze] raises instead of returning its
    two artifacts, with no file written. *)
Theorem C2_report_raises_on_first_row W df file_path fx weekly fx1 :
  Aggregator.calculate_weekly_metrics df fx = (Return weekly, fx1) ->
  weekly <> [] ->
  (exists b rest, weekly = b :: rest /\ WoW_Change_pct b = None)
  /\ (forall text fx',
         exists e, Report.generate_pdf_report W weekly text file_path fx' = (Raise e, fx')
                   /\ exn_cls e = TypeError)
  /\ (exists e fx2,
         Pipeline.transform_and_analyze W df file_path fx = (Raise e, fx2)
         /\ files fx2 = files fx).
Proof.
  intros Hcalc Hne.
  destruct (weekly_first_change_null _ _ _ _ Hcalc Hne) as (b & rest & -> & Hnull).
  split; [now exists b, rest |].
  split.
  - intros text fx'. eexists. split.
    + now apply generate_pdf_report_null_change.
    + reflexivity.
  - pose proof (keeps_files_at _ _ _ _ (calculate_weekly_metrics_keeps_files df) Hcalc) as F1.
    unfold Pipeline.transform_and_analyze.
    rewrite (bind_Return _ _ _ _ _ Hcalc).
    destruct (Detector.detect_anomalies W df fx1) as [[summary | e] fx2] eqn:Hdet;
      pose proof (keeps_files_at _ _ _ _ (detect_anomalies_keeps_files W df) Hdet) as F2.
    2:{ exists e, fx2. split; [now apply bind_Raise | congruence]. }
    rewrite (bind_Return _ _ _ _ _ Hdet).
    rewrite bind_print. cbv beta.
    match goal with |- context [printed ?l fx2] => set (fx3 := printed l fx2) end.
    assert (F23 : files fx3 = files fx2) by reflexivity.
    destruct (Analyst.generate_analysis W summary fx3) as [[text | e] fx4] eqn:Hgen;
      pose proof (keeps_files_at _ _ _ _ (generate_analysis_keeps_files W summary) Hgen) as F3.
    2:{ exists e, fx4. split; [now apply bind_Raise | congruence]. }
    rewrite (bind_Return _ _ _ _ _ Hgen).
    eexists _, fx4. split.
    + apply bind_Raise. now apply generate_pdf_report_null_change.
    + congruence.
Qed.

(** C2 at the five rows of [Demo.df]: two weekly rows, no report, no
    artifacts. *)
Lemma C2_report_raises_witness :
  (exists b rest,
      [mkWeekly 19723 12100 None; mkWeekly 19730 230 (Some (-98.1))%float] = b :: rest
      /\ WoW_Change_pct b = None)
  /\ (forall text fx',
      exists e,
        Report.generate_pdf_report Demo.world
          [mkWeekly 19723 12100 None; mkWeekly 19730 230 (Some (-98.1))%float]
          text Demo.csv_path fx' = (Raise e, fx')
        /\ exn_cls e = TypeError)
  /\ (exists e fx2,
         Pipeline.transform_and_analyze Demo.world Demo.df Demo.csv_path no_effects
         = (Raise e, fx2)
         /\ files fx2 = files no_effects).
Proof.
  apply (C2_report_raises_on_first_row Demo.world Demo.df Demo.csv_path no_effects _
           (printed "   => Calculated Weekly WoW metrics. (First WoW value will be null/inf)"
              no_effects)).
  - vm_compute. reflexivity.
  - discriminate.
Defined.

(** ** Weekly windows *)

Lemma week_start_div d : PyDate.week_start d = 7 * ((d + 3) / 7) - 3.
Proof.
  unfold PyDate.week_start.
  pose proof (Z.div_mod (d + 3) 7 ltac:(lia)). lia.
Qed.

Lemma week_start_mono d1 d2 :
  d1 <= d2 -> PyDate.week_start d1 <= PyDate.week_start d2.
Proof.
  intros H. rewrite !week_start_div.
  pose proof (Z.div_le_mono (d1 + 3) (d2 + 3) 7 ltac:(lia) ltac:(lia)). lia.
Qed.

Lemma is_sorted_cons x l :
  is_sorted (x :: l) = true ->
  is_sorted l = true /\ forall y, In y l -> x <= y.
Proof.
  revert x. induction l as [| y l IH]; intros x H.
  - split; [reflexivity | intros y []].
  - simpl in H. apply andb_true_iff in H as [Hxy Hl].
    apply Z.leb_le in Hxy. split; [exact Hl |].
    intros z [<- | Hz]; [exact Hxy |].
    apply IH in Hl as [_ Hl]. specialize (Hl z Hz). lia.
Qed.

Lemma windows_keys df k :
  In k (map fst (Aggregator.windows df))
  <-> exists r, In r df /\ PyDate.week_start (Date r) = k.
Proof.
  induction df as [| r rest IH]; simpl.
  - split; [intros [] | intros (r & [] & _)].
  - destruct (Aggregator.windows rest) as [| [w' g] ws] eqn:E.
    + simpl in *. split.
      * intros [<- | []]. exists r. auto.
      * intros (r' & [<- | Hr'] & Hk); [now left |].
        exfalso. apply (proj2 IH). now exists r'.
    + destruct (Z.eqb_spec (PyDate.week_start (Date r)) w') as [Hw | Hw]; simpl in *.
      * split.
        -- intros H. rewrite Hw in H. apply IH in H as (r' & Hr' & Hk).
           exists r'. auto.
        -- intros (r' & [<- | Hr'] & Hk); [now left |].
           rewrite Hw. apply IH. now exists r'.
      * split.
        -- intros [<- | H]; [exists r; auto |].
           apply IH in H as (r' & Hr' & Hk). exists r'. auto.
        -- intros (r' & [<- | Hr'] & Hk); [now left |].
           right. apply IH. now exists r'.
Qed.

Lemma windows_keys_increasing df :
  is_sorted (map Date df) = true ->
  StronglySorted Z.lt (map fst (Aggregator.windows df)).
Proof.
  induction df as [| r rest IH]; intros Hs.
  - constructor.
  - simpl map in Hs. apply is_sorted_cons in Hs as [Hrest Hle].
    specialize (IH Hrest).
    assert (Hlow : forall k, In k (map fst (Aggregator.windows rest)) ->
                             PyDate.week_start (Date r) <= k).
    { intros k Hk. apply windows_keys in Hk as (r' & Hr' & <-).
      apply week_start_mono, Hle, in_map, Hr'. }
    simpl. destruct (Aggregator.windows rest) as [| [w' g] ws] eqn:E.
    + repeat constructor.
    + simpl in IH, Hlow.
      destruct (Z.eqb_spec (PyDate.week_start (Date r)) w') as [Hw | Hw]; simpl.
      * now rewrite Hw.
      * inversion IH as [| ? ? Hws Hall]; subst.
        constructor; [exact IH |].
        constructor.
        -- specialize (Hlow w' (or_introl eq_refl)). lia.
        -- rewrite Forall_forall in *. intros k Hk.
           specialize (Hall k Hk). specialize (Hlow w' (or_introl eq_refl)). lia.
Qed.

Lemma agg_weekly_spend_keys groups :
  map fst (Aggregator.agg_weekly_spend groups) = map fst groups.
Proof.
  unfold Aggregator.agg_weekly_spend. rewrite map_map. reflexivity.
Qed.

(** Sorting a frame whose key column is already increasing changes
    nothing. *)
Lemma sort_Date_increasing rows :
  StronglySorted Z.lt (map fst rows) -> Aggregator.sort_Date rows = rows.
Proof.
  unfold Aggregator.sort_Date.
  induction rows as [| r rows IH]; intros Hs; [reflexivity |].
  simpl in *. inversion Hs as [| ? ? Hrows Hall]; subst.
  rewrite (IH Hrows). destruct rows as [| r' rows']; [reflexivity |].
  simpl. inversion Hall as [| ? ? Hlt _]; subst.
  destruct (Z.leb_spec (fst r) (fst r')); [reflexivity | lia].
Qed.

(** ** The change column *)

Lemma with_wow_chain r rows :
  Aggregator.with_wow (r :: rows) = mkWeekly (fst r) (snd r) None :: chain (snd r) rows.
Proof.
  unfold Aggregator.with_wow. cbn [map shift1 combine fst snd Aggregator.wow_change].
  f_equal. revert r. induction rows as [| r' rows IH]; intros r; [reflexivity |].
  cbn [map removelast combine chain fst snd].
  f_equal. apply IH.
Qed.

Lemma chain_dates prev rows : map Week_Date (chain prev rows) = map fst rows.
Proof.
  revert prev. induction rows as [| r rows IH]; intros prev; simpl; [reflexivity |].
  now rewrite IH.
Qed.

Lemma with_wow_dates rows : map Week_Date (Aggregator.with_wow rows) = map fst rows.
Proof.
  destruct rows as [| r rows]; [reflexivity |].
  rewrite with_wow_chain. simpl. now rewrite chain_dates.
Qed.

Lemma chain_change rows p i cur prev :
  nth_error (p :: chain (Weekly_Spend p) rows) (S i) = Some cur ->
  nth_error (p :: chain (Weekly_Spend p) rows) i = Some prev ->
  change_from prev cur.
Proof.
  revert p i. induction rows as [| r rows IH]; intros p i Hc Hp.
  - destruct i; discriminate.
  - destruct i as [| i].
    + simpl in Hc, Hp. inversion Hc; inversion Hp; subst. reflexivity.
    + apply (IH (mkWeekly (fst r) (snd r)
                   (Aggregator.wow_change (Some (snd r)) (Some (Weekly_Spend p)))) i);
        [exact Hc | exact Hp].
Qed.

Lemma increasing_NoDup l : StronglySorted Z.lt l -> NoDup l.
Proof.
  induction 1 as [| x l Hl IH Hall]; constructor; [| exact IH].
  intros Hin. rewrite Forall_forall in Hall. specialize (Hall x Hin). lia.
Qed.

Lemma weekly_dates df :
  is_sorted (map Date df) = true ->
  map Week_Date
    (Aggregator.with_wow
       (Aggregator.sort_Date (Aggregator.agg_weekly_spend (Aggregator.windows df))))
  = map fst (Aggregator.windows df).
Proof.
  intros Hs. rewrite with_wow_dates, sort_Date_increasing.
  - apply agg_weekly_spend_keys.
  - rewrite agg_weekly_spend_keys. now apply windows_keys_increasing.
Qed.

Lemma calculate_weekly_metrics_sorted df fx :
  is_sorted (map Date df) = true ->
  Aggregator.calculate_weekly_metrics df fx
  = (Return (Aggregator.with_wow
               (Aggregator.sort_Date (Aggregator.agg_weekly_spend (Aggregator.windows df)))),
     printed "   => Calculated Weekly WoW metrics. (First WoW value will be null/inf)" fx).
Proof.
  intros Hs.
  unfold Aggregator.calculate_weekly_metrics, Aggregator.group_by_dynamic.
  rewrite Hs. reflexivity.
Qed.

Lemma chain_rows prev rows :
  map (fun b => (Week_Date b, Weekly_Spend b)) (chain prev rows) = rows.
Proof.
  revert prev. induction rows as [| [d x] rows IH]; intros prev; [reflexivity |].
  cbn [chain map fst snd Week_Date Weekly_Spend]. now rewrite IH.
Qed.

Lemma with_wow_rows rows :
  map (fun b => (Week_Date b, Weekly_Spend b)) (Aggregator.with_wow rows) = rows.
Proof.
  destruct rows as [| [d x] rows]; [reflexivity |].
  rewrite with_wow_chain. cbn [map fst snd Week_Date Weekly_Spend].
  now rewrite chain_rows.
Qed.

Lemma windows_nonempty r rest : Aggregator.windows (r :: rest) <> [].
Proof.
  simpl. destruct (Aggregator.windows rest) as [| [w' g] ws]; [discriminate |].
  destruct (PyDate.week_start (Date r) =? w')%Z; discriminate.
Qed.

Lemma rows_of_week_none w df :
  (forall r, In r df -> PyDate.week_start (Date r) <> w) -> rows_of_week w df = [].
Proof.
  unfold rows_of_week. induction df as [| r rest IH]; intros H; [reflexivity |].
  simpl. destruct (Z.eqb_spec (PyDate.week_start (Date r)) w) as [Hw | _].
  - exfalso. apply (H r); [now left | exact Hw].
  - apply IH. intros r' Hr'. apply H. now right.
Qed.

Lemma rows_of_week_cons_same r rest :
  rows_of_week (PyDate.week_start (Date r)) (r :: rest)
  = r :: rows_of_week (PyDate.week_start (Date r)) rest.
Proof. unfold rows_of_week. simpl. now rewrite Z.eqb_refl. Qed.

Lemma rows_of_week_cons_other w r rest :
  PyDate.week_start (Date r) <> w ->
  rows_of_week w (r :: rest) = rows_of_week w rest.
Proof.
  intros H. unfold rows_of_week. simpl.
  now destruct (Z.eqb_spec (PyDate.week_start (Date r)) w).
Qed.

(** Each window holds exactly the rows of its week. *)
Lemma windows_groups df w g :
  is_sorted (map Date df) = true ->
  In (w, g) (Aggregator.windows df) ->
  g = rows_of_week w df.
Proof.
  revert w g. induction df as [| r rest IH]; intros w g Hs Hin; [destruct Hin |].
  simpl map in Hs. apply is_sorted_cons in Hs as [Hrest Hle].
  pose proof (windows_keys_increasing _ Hrest) as Hinc.
  assert (Hlow : forall k, In k (map fst (Aggregator.windows rest)) ->
                           PyDate.week_start (Date r) <= k).
  { intros k Hk. apply windows_keys in Hk as (r' & Hr' & <-).
    apply week_start_mono, Hle, in_map, Hr'. }
  assert (Hkeys : forall r', In r' rest ->
                             In (PyDate.week_start (Date r')) (map fst (Aggregator.windows rest))).
  { intros r' Hr'. apply windows_keys. now exists r'. }
  specialize (IH w).
  simpl in Hin. destruct (Aggregator.windows rest) as [| [w' g'] ws] eqn:E.
  - destruct rest as [| r' rest']; [| now apply windows_nonempty in E].
    destruct Hin as [Hin | []]. inversion Hin; subst.
    now rewrite rows_of_week_cons_same.
  - simpl in Hinc, Hlow, Hkeys. inversion Hinc as [| ? ? _ Hall]; subst.
    rewrite Forall_forall in Hall.
    assert (Hw' : PyDate.week_start (Date r) <= w') by (apply Hlow; now left).
    destruct (Z.eqb_spec (PyDate.week_start (Date r)) w') as [Hw | Hw].
    + destruct Hin as [Hin | Hin].
      * inversion Hin; subst. rewrite rows_of_week_cons_same. f_equal.
        apply IH; [exact Hrest | now left].
      * assert (Hlt : w' < w).
        { apply Hall. change w with (fst (w, g)). now apply in_map. }
        rewrite rows_of_week_cons_other by lia.
        apply IH; [exact Hrest | now right].
    + destruct Hin as [Hin | Hin].
      * inversion Hin; subst. rewrite rows_of_week_cons_same. f_equal.
        symmetry. apply rows_of_week_none. intros r' Hr'.
        destruct (Hkeys r' Hr') as [<- | Hk]; [lia |].
        specialize (Hall _ Hk). lia.
      * assert (Hge : w' <= w).
        { destruct Hin as [Hin | Hin]; [inversion Hin; lia |].
          assert (w' < w); [| lia].
          apply Hall. change w with (fst (w, g)). now apply in_map. }
        rewrite rows_of_week_cons_other by lia.
        apply IH; [exact Hrest | exact Hin].
Qed.

(** The spend of a weekly row is the sum over the rows of its week. *)
Lemma weekly_spend_is_week_sum df b :
  is_sorted (map Date df) = true ->
  In b (Aggregator.with_wow
          (Aggregator.sort_Date (Aggregator.agg_weekly_spend (Aggregator.windows df)))) ->
  Weekly_Spend b = F64.group_sum (map Spend (rows_of_week (Week_Date b) df)).
Proof.
  intros Hs Hb.
  rewrite sort_Date_increasing in Hb
    by (rewrite agg_weekly_spend_keys; now apply windows_keys_increasing).
  apply (in_map (fun b => (Week_Date b, Weekly_Spend b))) in Hb.
  rewrite with_wow_rows in Hb.
  unfold Aggregator.agg_weekly_spend in Hb.
  apply in_map_iff in Hb as ([w g] & Heq & Hin).
  simpl in Heq. injection Heq as Hd Hx.
  rewrite <- Hx, <- Hd. do 2 f_equal. now apply windows_groups.
Qed.

(** ** C9 *)

(** C9 (the code, where it departs): for a frame whose rows span the
    distinct calendar weeks [weeks] and whose [Date] column is in
    ascending order, the aggregator returns one bucket per week, dated
    by those weeks in strictly ascending order, the spend of each the
    sum over the rows of its week, the change of bucket 0 null and the
    change of every later bucket
    [round((current / previous - 1) * 100, 2)] of its predecessor.  When
    the [Date] column is not in ascending order it returns no bucket at
    all: the frame is grouped before it is sorted, and
    [group_by_dynamic] raises. *)
Theorem C9_weekly_buckets_need_a_sorted_frame df fx weeks :
  NoDup weeks ->
  (forall w, In w weeks <-> exists r, In r df /\ PyDate.week_start (Date r) = w) ->
  (is_sorted (map Date df) = true ->
   exists buckets fx',
     Aggregator.calculate_weekly_metrics df fx = (Return buckets, fx')
     /\ length buckets = length weeks
     /\ (forall w, In w (map Week_Date buckets) <-> In w weeks)
     /\ StronglySorted Z.lt (map Week_Date buckets)
     /\ (forall b, In b buckets ->
                   Weekly_Spend b
                   = F64.group_sum (map Spend (rows_of_week (Week_Date b) df)))
     /\ (forall b, nth_error buckets 0 = Some b -> WoW_Change_pct b = None)
     /\ (forall i prev cur,
            nth_error buckets i = Some prev ->
            nth_error buckets (S i) = Some cur ->
            change_from prev cur))
  /\ (is_sorted (map Date df) = false ->
      exists e,
        Aggregator.calculate_weekly_metrics df fx = (Raise e, fx)
        /\ exn_cls e = InvalidOperationError).
Proof.
  intros Hnd Hweeks. split; intros Hs.
  - eexists _, _. split; [now apply calculate_weekly_metrics_sorted |].
    pose proof (weekly_dates df Hs) as Hdates.
    pose proof (windows_keys_increasing df Hs) as Hinc.
    set (rows := Aggregator.sort_Date _) in *.
    assert (Hmem : forall w, In w (map Week_Date (Aggregator.with_wow rows)) <-> In w weeks).
    { intros w. rewrite Hdates, windows_keys. symmetry. apply Hweeks. }
    repeat split.
    + rewrite <- (length_map Week_Date).
      apply Permutation_length, NoDup_Permutation; [| exact Hnd | exact Hmem].
      rewrite Hdates. now apply increasing_NoDup.
    + apply Hmem.
    + apply Hmem.
    + now rewrite Hdates.
    + intros b Hb. now apply weekly_spend_is_week_sum.
    + intros b. destruct rows as [| r rows']; [discriminate |].
      rewrite with_wow_chain. intros Hb. now inversion Hb.
    + intros i prev cur. destruct rows as [| r rows']; [now destruct i |].
      rewrite with_wow_chain. intros Hp Hc.
      exact (chain_change rows' (mkWeekly (fst r) (snd r) None) i cur prev Hc Hp).
  - unfold Aggregator.calculate_weekly_metrics, Aggregator.group_by_dynamic.
    rewrite Hs. eexists. split; reflexivity.
Qed.

(** C9 at the two rows of [Demo.unsorted], the later week first, and at
    the five rows of [Demo.df], which span two weeks. *)
Lemma C9_weekly_buckets_witness :
  (exists e,
      Aggregator.calculate_weekly_metrics Demo.unsorted no_effects = (Raise e, no_effects)
      /\ exn_cls e = InvalidOperationError)
  /\ (exists buckets fx',
         Aggregator.calculate_weekly_metrics Demo.df no_effects = (Return buckets, fx')
         /\ length buckets = 2%nat
         /\ (forall w, In w (map Week_Date buckets) <-> In w [19723; 19730])
         /\ StronglySorted Z.lt (map Week_Date buckets)
         /\ (forall b, In b buckets ->
                       Weekly_Spend b
                       = F64.group_sum (map Spend (rows_of_week (Week_Date b) Demo.df)))
         /\ (forall b, nth_error buckets 0 = Some b -> WoW_Change_pct b = None)
         /\ (forall i prev cur,
                nth_error buckets i = Some prev ->
                nth_error buckets (S i) = Some cur ->
                change_from prev cur)).
Proof.
  split.
  - apply (C9_weekly_buckets_need_a_sorted_frame Demo.unsorted no_effects [19730; 19723]).
    + repeat constructor; simpl; intuition discriminate.
    + intros w. split.
      * intros [<- | [<- | []]].
        -- exists (Demo.row 19730 120 "Dallas"). split; [simpl; auto | reflexivity].
        -- exists (Demo.row 19723 100 "Miami"). split; [simpl; auto | reflexivity].
      * intros (r & Hr & <-). simpl in Hr.
        destruct Hr as [<- | [<- | []]]; vm_compute; auto.
    + reflexivity.
  - apply (C9_weekly_buckets_need_a_sorted_frame Demo.df no_effects [19723; 19730]).
    + repeat constructor; simpl; intuition discriminate.
    + intros w. split.
      * intros [<- | [<- | []]].
        -- exists (Demo.row 19723 100 "Miami"). split; [simpl; auto | reflexivity].
        -- exists (Demo.row 19730 120 "Dallas"). split; [simpl; auto 6 | reflexivity].
      * intros (r & Hr & <-). simpl in Hr.
        destruct Hr as [<- | [<- | [<- | [<- | [<- | []]]]]]; vm_compute; auto.
    + reflexivity.
Defined.

(** ** Scaling the spend *)

Lemma scale_spend_dates c df : map Date (scale_spend c df) = map Date df.
Proof. unfold scale_spend. rewrite map_map. reflexivity. Qed.

Lemma windows_scale_spend c df :
  Aggregator.windows (scale_spend c df)
  = map (fun g => (fst g, scale_spend c (snd g))) (Aggregator.windows df).
Proof.
  induction df as [| r rest IH]; [reflexivity |].
  cbn [scale_spend map Aggregator.windows Date] in *.
  fold (scale_spend c rest). rewrite IH.
  destruct (Aggregator.windows rest) as [| [w' g] ws]; [reflexivity |].
  cbn [map fst snd].
  destruct (PyDate.week_start (Date r) =? w')%Z; reflexivity.
Qed.

Lemma windows_scale_spend_keys c df :
  map fst (Aggregator.windows (scale_spend c df)) = map fst (Aggregator.windows df).
Proof. rewrite windows_scale_spend, map_map. reflexivity. Qed.

Lemma chain_changes prev rows :
  map WoW_Change_pct (chain prev rows)
  = map change_of_quotient (quotients (prev :: map snd rows)).
Proof.
  revert prev. induction rows as [| r rows IH]; intros prev; [reflexivity |].
  cbn [chain map quotients]. rewrite IH. reflexivity.
Qed.

Lemma with_wow_changes r rows :
  map WoW_Change_pct (Aggregator.with_wow (r :: rows))
  = None :: map change_of_quotient (quotients (map snd (r :: rows))).
Proof. rewrite with_wow_chain. cbn [map]. now rewrite chain_changes. Qed.

(** ** Binary64 and the powers of two *)

Section Binary64.

Local Open Scope Z_scope.

Lemma fexp_above e : -1074 <= e - 53 -> fexp prec emax e = e - 53.
Proof. intros H. unfold fexp, SpecFloat.emin, prec, emax. lia. Qed.

Lemma fexp_below e : e - 53 <= -1074 -> fexp prec emax e = -1074.
Proof. intros H. unfold fexp, SpecFloat.emin, prec, emax. lia. Qed.

(** The two shifts of a rounding do not depend on the exponent as long as
    it stays above the subnormal range. *)
Lemma shr_fexp_shift m e l k :
  -1074 <= e -> -1074 <= e + k ->
  shr_fexp prec emax m (e + k) l
  = (fst (shr_fexp prec emax m e l), snd (shr_fexp prec emax m e l) + k).
Proof.
  intros He Hek. unfold shr_fexp.
  set (d := Zdigits2 m).
  destruct (Z.le_gt_cases (-1074) (d + e - 53)) as [H | H].
  - assert (E1 : fexp prec emax (d + e) - e = d - 53) by (rewrite fexp_above; lia).
    destruct (Z.le_gt_cases (-1074) (d + (e + k) - 53)) as [H' | H'].
    + assert (E2 : fexp prec emax (d + (e + k)) - (e + k) = d - 53) by (rewrite fexp_above; lia).
      rewrite E1, E2. unfold shr. destruct (d - 53); simpl; f_equal; lia.
    + assert (E2 : fexp prec emax (d + (e + k)) - (e + k) = -1074 - (e + k)) by (rewrite fexp_below; lia).
      rewrite E1, E2. unfold shr.
      destruct (d - 53) eqn:Ed; destruct (-1074 - (e + k)) eqn:Ek; simpl; try (f_equal; lia); lia.
  - assert (E1 : fexp prec emax (d + e) - e = -1074 - e) by (rewrite fexp_below; lia).
    destruct (Z.le_gt_cases (-1074) (d + (e + k) - 53)) as [H' | H'].
    + assert (E2 : fexp prec emax (d + (e + k)) - (e + k) = d - 53) by (rewrite fexp_above; lia).
      rewrite E1, E2. unfold shr.
      destruct (d - 53) eqn:Ed; destruct (-1074 - e) eqn:Ek; simpl; try (f_equal; lia); lia.
    + assert (E2 : fexp prec emax (d + (e + k)) - (e + k) = -1074 - (e + k)) by (rewrite fexp_below; lia).
      rewrite E1, E2. unfold shr.
      destruct (-1074 - e) eqn:Ed; destruct (-1074 - (e + k)) eqn:Ek; simpl; try (f_equal; lia); lia.
Qed.

Lemma shr_fexp_exp_ge m e l : e <= snd (shr_fexp prec emax m e l).
Proof.
  unfold shr_fexp, shr. destruct (fexp prec emax (Zdigits2 m + e) - e); simpl; lia.
Qed.

Lemma roomy_finite k s m e :
  roomy k (S754_finite s m e) = true ->
  Zpos (digits2_pos m) = 53
  /\ -1074 <= e /\ -1074 <= e + k /\ e <= 971 /\ e + k <= 971.
Proof.
  unfold roomy. rewrite !andb_true_iff, Z.eqb_eq, !Z.leb_le. tauto.
Qed.

Lemma roomy_fits k r : roomy k r = true -> fits k r.
Proof.
  destruct r; try discriminate; try exact (fun _ => I).
  intros H. apply roomy_finite in H. simpl. lia.
Qed.

Lemma binary_round_aux_shift s mx ex lx k :
  -1074 <= ex -> -1074 <= ex + k ->
  fits k (binary_round_aux prec emax s mx ex lx) ->
  binary_round_aux prec emax s mx (ex + k) lx
  = shift_exp k (binary_round_aux prec emax s mx ex lx).
Proof.
  intros He Hek Hr. unfold binary_round_aux in *.
  rewrite (shr_fexp_shift mx ex lx k He Hek).
  pose proof (shr_fexp_exp_ge mx ex lx) as Hge.
  destruct (shr_fexp prec emax mx ex lx) as [mrs' e'] eqn:E1. cbn [fst snd] in *.
  rewrite (shr_fexp_shift _ e' loc_Exact k) by lia.
  destruct (shr_fexp prec emax _ e' loc_Exact) as [mrs'' e''] eqn:E2. cbn [fst snd].
  destruct (shr_m mrs''); try reflexivity.
  destruct (e'' <=? emax - prec) eqn:Eb; [| destruct Hr].
  simpl in Hr.
  replace (e'' + k <=? emax - prec) with true; [reflexivity |].
  symmetry. apply Z.leb_le. unfold emax, prec. lia.
Qed.

Lemma binary_round_aux_exact s m e :
  fexp prec emax (Zpos (digits2_pos m) + e) - e <= 0 ->
  binary_round_aux prec emax s (Zpos m) e loc_Exact
  = if e <=? 971 then S754_finite s m e else S754_infinity s.
Proof.
  intros H. unfold binary_round_aux, shr_fexp. cbn [Zdigits2 shr_record_of_loc].
  assert (Hs : forall mrs, shr mrs e (fexp prec emax (Zpos (digits2_pos m) + e) - e) = (mrs, e)).
  { intros mrs. unfold shr. destruct (fexp prec emax (Zpos (digits2_pos m) + e) - e); try reflexivity. lia. }
  rewrite Hs. cbn [shr_m loc_of_shr_record round_nearest_even Zdigits2 shr_record_of_loc].
  rewrite Hs. reflexivity.
Qed.

Lemma digits2_iter_xO m p :
  Zpos (digits2_pos (Pos.iter xO m p)) = Zpos (digits2_pos m) + Zpos p.
Proof.
  induction p as [| p IH] using Pos.peano_ind.
  - simpl. lia.
  - rewrite Pos.iter_succ. cbn [digits2_pos]. lia.
Qed.

Lemma binary_round_shift s m e k :
  -1074 <= e -> -1074 <= e + k ->
  roomy k (binary_round prec emax s m e) = true ->
  binary_round prec emax s m (e + k) = shift_exp k (binary_round prec emax s m e).
Proof.
  intros He Hek Hr. unfold binary_round, shl_align in *.
  set (d := Zpos (digits2_pos m)) in *.
  destruct (Z.le_gt_cases 53 d) as [Hd | Hd].
  - (* no alignment *)
    replace (fexp prec emax (d + e) - e) with (d - 53) in * by (rewrite fexp_above; lia).
    replace (fexp prec emax (d + (e + k)) - (e + k)) with (d - 53) by (rewrite fexp_above; lia).
    destruct (d - 53) eqn:Ed; try lia;
      apply binary_round_aux_shift; auto using roomy_fits.
  - destruct (Z.le_gt_cases (-1074) (d + e - 53)) as [H | H].
    + (* aligned to 53 digits *)
      rewrite (fexp_above (d + e)) in * by lia.
      replace (d + e - 53 - e) with (d - 53) in * by lia.
      destruct (d - 53) as [| p | p] eqn:Ed; try lia.
      assert (Hdig : Zpos (digits2_pos (Pos.iter xO m p)) = 53)
        by (rewrite digits2_iter_xO; fold d; lia).
      rewrite binary_round_aux_exact in Hr |- *
        by (rewrite Hdig; unfold fexp, SpecFloat.emin, prec, emax; lia).
      destruct (d + e - 53 <=? 971) eqn:Eb; [| discriminate].
      apply roomy_finite in Hr.
      assert (Hk : -1074 <= d + (e + k) - 53) by lia.
      rewrite (fexp_above (d + (e + k))) by lia.
      replace (d + (e + k) - 53 - (e + k)) with (d - 53) by lia.
      rewrite Ed.
      rewrite binary_round_aux_exact
        by (rewrite Hdig; unfold fexp, SpecFloat.emin, prec, emax; lia).
      replace (d + (e + k) - 53 <=? 971) with true by (symmetry; apply Z.leb_le; lia).
      cbn [shift_exp]. f_equal. lia.
    + (* the subnormal range: the result has fewer than 53 digits *)
      exfalso.
      rewrite (fexp_below (d + e)) in Hr by lia.
      assert (Hex : forall mz, Zpos (digits2_pos mz) < 53 ->
                roomy k (binary_round_aux prec emax s (Zpos mz) (-1074) loc_Exact) = false).
      { intros mz Hmz. rewrite binary_round_aux_exact
          by (unfold fexp, SpecFloat.emin, prec, emax; lia).
        change (-1074 <=? 971) with true. cbn iota.
        destruct (roomy k (S754_finite s mz (-1074))) eqn:E;
          [apply roomy_finite in E; lia | reflexivity]. }
      destruct (-1074 - e) as [| p | p] eqn:Ed; try lia.
      * assert (e = -1074) by lia. subst e.
        rewrite Hex in Hr; [discriminate | fold d; lia].
      * rewrite Hex in Hr; [discriminate |].
        rewrite digits2_iter_xO. fold d. lia.
Qed.

Lemma SFadd_shift k x y :
  roomy k x = true -> roomy k y = true ->
  roomy k (SFadd prec emax x y) = true ->
  SFadd prec emax (shift_exp k x) (shift_exp k y)
  = shift_exp k (SFadd prec emax x y).
Proof.
  intros Hx Hy Hr.
  destruct x as [sx | sx | | sx mx ex]; try discriminate;
    destruct y as [sy | sy | | sy my ey]; try discriminate; try reflexivity.
  - destruct sx, sy; reflexivity.
  - apply roomy_finite in Hx, Hy.
    cbn [shift_exp]. unfold SFadd in Hr |- *.
    rewrite Z.add_min_distr_r.
    set (ez := Z.min ex ey) in *.
    assert (Hsx : fst (shl_align mx (ex + k) (ez + k)) = fst (shl_align mx ex ez)).
    { unfold shl_align. replace (ez + k - (ex + k)) with (ez - ex) by lia.
      destruct (ez - ex); reflexivity. }
    assert (Hsy : fst (shl_align my (ey + k) (ez + k)) = fst (shl_align my ey ez)).
    { unfold shl_align. replace (ez + k - (ey + k)) with (ez - ey) by lia.
      destruct (ez - ey); reflexivity. }
    rewrite Hsx, Hsy.
    destruct (cond_Zopp sx (Zpos (fst (shl_align mx ex ez)))
              + cond_Zopp sy (Zpos (fst (shl_align my ey ez)))) as [| m | m];
      cbn [binary_normalize] in *; [reflexivity | |];
      apply binary_round_shift; auto; lia.
Qed.

Lemma shr_iter_xO_52 m :
  iter_pos shr_1 52 (Build_shr_record (Zpos (Pos.iter xO m 52)) false false)
  = Build_shr_record (Zpos m) false false.
Proof. reflexivity. Qed.

Lemma SFmul_pow2 k x :
  roomy k x = true ->
  SFmul prec emax (S754_finite false 4503599627370496 (k - 52)) x = shift_exp k x.
Proof.
  intros Hx. destruct x as [sx | sx | | s m e]; try discriminate; [reflexivity |].
  apply roomy_finite in Hx. destruct Hx as (Hd & He & Hek & Hu & Huk).
  cbn [SFmul shift_exp xorb].
  change (Pos.mul 4503599627370496 m) with (Pos.iter xO m 52).
  unfold binary_round_aux, shr_fexp. cbn [Zdigits2 shr_record_of_loc].
  rewrite digits2_iter_xO, Hd.
  replace (fexp prec emax (53 + 52 + (k - 52 + e)) - (k - 52 + e)) with 52
    by (rewrite fexp_above; lia).
  cbn [shr]. rewrite shr_iter_xO_52.
  cbn [shr_m loc_of_shr_record round_nearest_even Zdigits2 shr_record_of_loc].
  rewrite Hd.
  replace (fexp prec emax (53 + (k - 52 + e + 52)) - (k - 52 + e + 52)) with 0
    by (rewrite fexp_above; lia).
  cbn [shr shr_m].
  replace (k - 52 + e + 52) with (e + k) by lia.
  replace (e + k <=? emax - prec) with true; [reflexivity |].
  symmetry. apply Z.leb_le. unfold emax, prec. lia.
Qed.

Lemma SFdiv_shift k x y :
  SFdiv prec emax (shift_exp k x) (shift_exp k y) = SFdiv prec emax x y.
Proof.
  destruct x as [sx | sx | | sx mx ex], y as [sy | sy | | sy my ey]; try reflexivity.
  cbn [shift_exp SFdiv]. unfold SFdiv_core_binary.
  replace (Zdigits2 (Zpos mx) + (ex + k) - (Zdigits2 (Zpos my) + (ey + k)))
    with (Zdigits2 (Zpos mx) + ex - (Zdigits2 (Zpos my) + ey)) by lia.
  replace (ex + k - (ey + k)) with (ex - ey) by lia.
  reflexivity.
Qed.

Lemma scaled_zero k : scaled k 0%float 0%float.
Proof. split; reflexivity. Qed.

Lemma scaled_add k x x' y y' :
  scaled k x x' -> scaled k y y' ->
  roomy k (Prim2SF (x + y)) = true ->
  scaled k (x + y)%float (x' + y')%float.
Proof.
  intros [Hx Hx'] [Hy Hy'] Hr. split; [exact Hr |].
  rewrite add_spec in Hr. rewrite !add_spec, Hx', Hy'.
  unfold SF64add in *. now apply SFadd_shift.
Qed.

Lemma scaled_mul k c x :
  is_pow2 k c -> roomy k (Prim2SF x) = true -> scaled k x (c * x)%float.
Proof.
  intros Hc Hx. split; [exact Hx |].
  rewrite mul_spec, Hc. unfold SF64mul. now apply SFmul_pow2.
Qed.

Lemma scaled_div k a a' b b' :
  scaled k a a' -> scaled k b b' -> (a' / b')%float = (a / b)%float.
Proof.
  intros [_ Ha] [_ Hb]. apply Prim2SF_inj.
  rewrite !div_spec, Ha, Hb. unfold SF64div. apply SFdiv_shift.
Qed.

End Binary64.

(** ** The sum kernel, two runs side by side *)

Lemma Forall2_firstn {A B} (R : A -> B -> Prop) n l l' :
  Forall2 R l l' -> Forall2 R (firstn n l) (firstn n l').
Proof.
  intros H. revert n. induction H; intros [| n]; simpl; constructor; auto.
Qed.

Lemma Forall2_skipn {A B} (R : A -> B -> Prop) n l l' :
  Forall2 R l l' -> Forall2 R (skipn n l) (skipn n l').
Proof.
  intros H. revert n. induction H; intros [| n]; simpl; auto.
Qed.

Lemma Forall2_repeat {A B} (R : A -> B -> Prop) a b n :
  R a b -> Forall2 R (repeat a n) (repeat b n).
Proof. intros H. induction n; simpl; constructor; auto. Qed.

Section KernelRel.

Context {A B : Type}.
Variable plusA : A -> A -> A.
Variable zeroA : A.
Variable plusB : B -> B -> B.
Variable zeroB : B.
Variable R : A -> B -> Prop.
Hypothesis R_zero : R zeroA zeroB.
Hypothesis R_plus :
  forall a b a' b', R a a' -> R b b' -> R (plusA a b) (plusB a' b').

Lemma add_lanes_rel v v' w w' :
  Forall2 R v v' -> Forall2 R w w' ->
  Forall2 R (F64.add_lanes plusA v w) (F64.add_lanes plusB v' w').
Proof.
  intros Hv. revert w w'. induction Hv; intros w w' Hw; [constructor |].
  destruct Hw; [constructor |].
  unfold F64.add_lanes in *. simpl. constructor; auto.
Qed.

Lemma halve_rel v v' :
  Forall2 R v v' -> Forall2 R (F64.halve plusA v) (F64.halve plusB v').
Proof.
  intros H. unfold F64.halve. rewrite <- (Forall2_length H).
  apply add_lanes_rel; [now apply Forall2_firstn | now apply Forall2_skipn].
Qed.

Lemma vector_horizontal_sum_rel v v' :
  Forall2 R v v' -> R (F64.vector_horizontal_sum plusA zeroA v) (F64.vector_horizontal_sum plusB zeroB v').
Proof.
  intros H. unfold F64.vector_horizontal_sum.
  pose proof (halve_rel _ _ (halve_rel _ _ H)) as H4.
  destruct H4 as [| e0 e0' ? ? H0 H4]; [exact R_zero |].
  destruct H4 as [| e1 e1' ? ? H1 H4]; [exact R_zero |].
  destruct H4 as [| e2 e2' ? ? H2 H4]; [exact R_zero |].
  destruct H4 as [| e3 e3' ? ? H3 H4]; [exact R_zero |].
  destruct H4; [| exact R_zero].
  auto.
Qed.

Lemma chunks_rel n fuel l l' :
  Forall2 R l l' -> Forall2 (Forall2 R) (F64.chunks n fuel l) (F64.chunks n fuel l').
Proof.
  revert l l'. induction fuel as [| fuel IH]; intros l l' H; [constructor |].
  simpl. destruct H as [| a b l l' Hab H]; [constructor |].
  constructor.
  - apply Forall2_firstn. now constructor.
  - apply IH, Forall2_skipn. now constructor.
Qed.

Lemma fold_add_lanes_rel cs cs' acc acc' :
  Forall2 (Forall2 R) cs cs' -> Forall2 R acc acc' ->
  Forall2 R (fold_left (F64.add_lanes plusA) cs acc)
            (fold_left (F64.add_lanes plusB) cs' acc').
Proof.
  intros H. revert acc acc'. induction H; intros acc acc' Hacc; simpl; [exact Hacc |].
  apply IHForall2. now apply add_lanes_rel.
Qed.

Lemma sum_block_vectorized_rel b b' :
  Forall2 R b b' -> R (F64.sum_block_vectorized plusA zeroA b) (F64.sum_block_vectorized plusB zeroB b').
Proof.
  intros H. unfold F64.sum_block_vectorized. apply vector_horizontal_sum_rel.
  apply fold_add_lanes_rel; [now apply chunks_rel | now apply Forall2_repeat].
Qed.

Lemma pairwise_sum_rel fuel blocks blocks' :
  Forall2 (Forall2 R) blocks blocks' ->
  R (F64.pairwise_sum plusA zeroA fuel blocks) (F64.pairwise_sum plusB zeroB fuel blocks').
Proof.
  revert blocks blocks'. induction fuel as [| fuel IH]; intros blocks blocks' H;
    [exact R_zero |].
  simpl. rewrite <- (Forall2_length H).
  destruct H as [| b b' bs bs' Hb H]; [exact R_zero |].
  destruct H as [| c c' cs cs' Hc H]; [now apply sum_block_vectorized_rel |].
  apply R_plus; apply IH.
  - apply Forall2_firstn. repeat constructor; assumption.
  - apply Forall2_skipn. repeat constructor; assumption.
Qed.

Lemma fold_plus_rel l l' acc acc' :
  Forall2 R l l' -> R acc acc' ->
  R (fold_left plusA l acc) (fold_left plusB l' acc').
Proof.
  intros H. revert acc acc'. induction H; intros acc acc' Hacc; simpl; auto.
Qed.

Lemma sum_kernel_rel l l' :
  Forall2 R l l' -> R (F64.sum_kernel plusA zeroA l) (F64.sum_kernel plusB zeroB l').
Proof.
  intros H. unfold F64.sum_kernel. rewrite <- (Forall2_length H).
  apply R_plus.
  - destruct (128 <=? length l)%nat; [| exact R_zero].
    apply pairwise_sum_rel, chunks_rel. now apply Forall2_skipn.
  - apply fold_plus_rel; [now apply Forall2_firstn | exact R_zero].
Qed.

Lemma group_sum_with_rel l l' :
  Forall2 R l l' -> R (F64.group_sum_with plusA zeroA l) (F64.group_sum_with plusB zeroB l').
Proof.
  intros H. unfold F64.group_sum_with.
  destruct H as [| a b l l' Hab H]; [now apply sum_kernel_rel |].
  destruct H as [| a2 b2 l l' Hab2 H]; [exact Hab |].
  apply sum_kernel_rel. repeat constructor; assumption.
Qed.

End KernelRel.

(** ** Weekly totals of a scaled frame *)

Lemma checked_sum_is_group_sum k xs t :
  checked_sum k xs = Some t -> F64.group_sum xs = t.
Proof.
  unfold checked_sum, F64.group_sum.
  apply (group_sum_with_rel (checked_add k) (Some 0%float) PrimFloat.add 0%float
           (fun o x => forall t, o = Some t -> x = t)).
  - intros t0 H. now inversion H.
  - intros [a |] [b |] a' b' Ha Hb t0 H; try discriminate.
    unfold checked_add, checked in H.
    destruct (roomy k _); [| discriminate]. inversion H.
    now rewrite (Ha a eq_refl), (Hb b eq_refl).
  - induction xs as [| x xs IH]; constructor; [| exact IH].
    intros t0 H. unfold checked in H. destruct (roomy k _); now inversion H.
Qed.

Lemma checked_sum_scaled k c xs t :
  is_pow2 k c ->
  checked_sum k xs = Some t ->
  scaled k t (F64.group_sum (map (PrimFloat.mul c) xs)).
Proof.
  intros Hc. unfold checked_sum, F64.group_sum.
  apply (group_sum_with_rel (checked_add k) (Some 0%float) PrimFloat.add 0%float
           (fun o y => forall t, o = Some t -> scaled k t y)).
  - intros t0 H. inversion H. apply scaled_zero.
  - intros [a |] [b |] a' b' Ha Hb t0 H; try discriminate.
    unfold checked_add, checked in H.
    destruct (roomy k _) eqn:Hr; [| discriminate]. inversion H. subst t0.
    apply scaled_add; auto.
  - induction xs as [| x xs IH]; constructor; [| exact IH].
    intros t0 H. unfold checked in H.
    destruct (roomy k _) eqn:Hr; inversion H. subst t0.
    now apply scaled_mul.
Qed.

Lemma scale_spend_spends c g :
  map Spend (scale_spend c g) = map (PrimFloat.mul c) (map Spend g).
Proof. unfold scale_spend. rewrite !map_map. reflexivity. Qed.

Lemma weekly_totals_sorted df :
  is_sorted (map Date df) = true ->
  weekly_totals df
  = map (fun g => F64.group_sum (map Spend (snd g))) (Aggregator.windows df).
Proof.
  intros Hs. unfold weekly_totals.
  rewrite sort_Date_increasing
    by (rewrite agg_weekly_spend_keys; now apply windows_keys_increasing).
  unfold Aggregator.agg_weekly_spend. rewrite map_map. reflexivity.
Qed.

Lemma weekly_totals_scaled k c df :
  is_pow2 k c ->
  is_sorted (map Date df) = true ->
  stays_normal k df = true ->
  Forall2 (scaled k) (weekly_totals df) (weekly_totals (scale_spend c df)).
Proof.
  intros Hc Hs Hn.
  rewrite !weekly_totals_sorted by (rewrite ?scale_spend_dates; exact Hs).
  rewrite windows_scale_spend, map_map. cbn [snd].
  unfold stays_normal in Hn.
  induction (Aggregator.windows df) as [| g gs IH]; [constructor |].
  cbn [forallb map] in *. apply andb_true_iff in Hn as [Hg Hn].
  constructor; [| now apply IH].
  cbn beta in Hg.
  match type of Hg with
  | match ?s with _ => _ end = true => destruct s as [t |] eqn:Ht; [| discriminate Hg]
  end.
  rewrite scale_spend_spends.
  change (F64.group_sum (map Spend (snd g)))
    with (F64.group_sum (map Spend (@snd Z (list Row) g))).
  rewrite (checked_sum_is_group_sum _ _ _ Ht).
  now apply checked_sum_scaled.
Qed.

Lemma quotients_scaled k ts ts' :
  Forall2 (scaled k) ts ts' -> quotients ts' = quotients ts.
Proof.
  induction 1 as [| prev prev' rest rest' Hp Hrest IH]; [reflexivity |].
  destruct Hrest as [| cur cur' rest rest' Hcur Hrest]; [reflexivity |].
  cbn [quotients] in *. f_equal; [| exact IH].
  exact (scaled_div _ _ _ _ _ Hcur Hp).
Qed.

Lemma scaling_of_unsorted_frame df c fx :
  is_sorted (map Date df) = false ->
  date_column (fst (Aggregator.calculate_weekly_metrics (scale_spend c df) fx))
  = date_column (fst (Aggregator.calculate_weekly_metrics df fx))
  /\ wow_column (fst (Aggregator.calculate_weekly_metrics (scale_spend c df) fx))
     = wow_column (fst (Aggregator.calculate_weekly_metrics df fx)).
Proof.
  intros Hs.
  unfold Aggregator.calculate_weekly_metrics, Aggregator.group_by_dynamic.
  rewrite scale_spend_dates, Hs. split; reflexivity.
Qed.

(** Scaling leaves the dates alone, and the changes too when it leaves
    the quotients of consecutive totals alone. *)
Lemma scaling_that_keeps_quotients df c fx :
  is_sorted (map Date df) = true ->
  quotients (weekly_totals (scale_spend c df)) = quotients (weekly_totals df) ->
  date_column (fst (Aggregator.calculate_weekly_metrics (scale_spend c df) fx))
  = date_column (fst (Aggregator.calculate_weekly_metrics df fx))
  /\ wow_column (fst (Aggregator.calculate_weekly_metrics (scale_spend c df) fx))
     = wow_column (fst (Aggregator.calculate_weekly_metrics df fx)).
Proof.
  intros Hs Hq.
  assert (Hs' : is_sorted (map Date (scale_spend c df)) = true)
    by now rewrite scale_spend_dates.
  rewrite !calculate_weekly_metrics_sorted by assumption.
  cbn [fst date_column wow_column].
  pose proof (weekly_dates _ Hs') as Hd'. pose proof (weekly_dates _ Hs) as Hd.
  rewrite windows_scale_spend_keys in Hd'.
  split; [now rewrite Hd', Hd |].
  f_equal. unfold weekly_totals in Hq.
  rewrite with_wow_dates in Hd, Hd'.
  destruct (Aggregator.sort_Date (Aggregator.agg_weekly_spend
                                    (Aggregator.windows (scale_spend c df))))
    as [| r' rows'];
    destruct (Aggregator.sort_Date (Aggregator.agg_weekly_spend (Aggregator.windows df)))
      as [| r rows].
  - reflexivity.
  - rewrite <- Hd in Hd'. discriminate.
  - rewrite <- Hd in Hd'. discriminate.
  - rewrite !with_wow_changes. now rewrite Hq.
Qed.

(** ** C10 *)

(** C10 (as stated, refuted): weekly spends 160 then 169 give a change of
    5.62, the same spends multiplied by 0.1 give 5.63. *)
Lemma C10_counterexample_rounding :
  PrimFloat.ltb 0 0.1 = true
  /\ wow_column (fst (Aggregator.calculate_weekly_metrics
                        (scale_spend 0.1 Demo.two_weeks) no_effects))
     <> wow_column (fst (Aggregator.calculate_weekly_metrics Demo.two_weeks no_effects)).
Proof.
  split; [reflexivity |].
  intros H.
  apply (f_equal (fun o => match o with
                           | Return [_; Some x] => PrimFloat.ltb x 5.625
                           | _ => false
                           end)) in H.
  vm_compute in H. discriminate.
Qed.

(** A power of two alone is not enough.  Times [2^1023] the weekly
    spends 160 and 169 overflow, and the change is not a number; times
    [2^-1022] the spends of [Demo.tiny_weeks] underflow, and the change
    is -50 where it was -33.33. *)
Example power_of_two_without_room :
  (is_pow2 1023 0x1p1023
   /\ stays_normal 1023 Demo.two_weeks = false
   /\ wow_column (fst (Aggregator.calculate_weekly_metrics
                         (scale_spend 0x1p1023 Demo.two_weeks) no_effects))
      <> wow_column (fst (Aggregator.calculate_weekly_metrics Demo.two_weeks no_effects)))
  /\ (is_pow2 (-1022) 0x1p-1022
      /\ stays_normal (-1022) Demo.tiny_weeks = false
      /\ wow_column (fst (Aggregator.calculate_weekly_metrics
                            (scale_spend 0x1p-1022 Demo.tiny_weeks) no_effects))
         <> wow_column (fst (Aggregator.calculate_weekly_metrics Demo.tiny_weeks
                               no_effects))).
Proof.
  split; (split; [vm_compute; reflexivity |]); (split; [vm_compute; reflexivity |]);
    intros H.
  - apply (f_equal (fun o => match o with
                             | Return [_; Some x] => PrimFloat.eqb x x
                             | _ => true
                             end)) in H.
    vm_compute in H. discriminate.
  - apply (f_equal (fun o => match o with
                             | Return [_; Some x] => PrimFloat.ltb x (-40)
                             | _ => false
                             end)) in H.
    vm_compute in H. discriminate.
Qed.

(** C10 (amended): when [c] is a power of two, [c = 2^k], and every
    spend and every partial sum on the way to a weekly total is a zero
    or a normal number that is still normal and finite once multiplied
    by [c], multiplying every record's spend by [c] leaves the dates of
    the buckets and every bucket's change unchanged. *)
Theorem C10_scaling_by_power_of_two df c k fx :
  is_pow2 k c ->
  stays_normal k df = true ->
  date_column (fst (Aggregator.calculate_weekly_metrics (scale_spend c df) fx))
  = date_column (fst (Aggregator.calculate_weekly_metrics df fx))
  /\ wow_column (fst (Aggregator.calculate_weekly_metrics (scale_spend c df) fx))
     = wow_column (fst (Aggregator.calculate_weekly_metrics df fx)).
Proof.
  intros Hc Hn.
  destruct (is_sorted (map Date df)) eqn:Hs.
  - apply scaling_that_keeps_quotients; [exact Hs |].
    apply (quotients_scaled k). now apply weekly_totals_scaled.
  - now apply scaling_of_unsorted_frame.
Qed.

(** The amended C10 at [Demo.df], doubled. *)
Lemma C10_scaling_witness :
  date_column (fst (Aggregator.calculate_weekly_metrics (scale_spend 2 Demo.df) no_effects))
  = date_column (fst (Aggregator.calculate_weekly_metrics Demo.df no_effects))
  /\ wow_column (fst (Aggregator.calculate_weekly_metrics (scale_spend 2 Demo.df) no_effects))
     = wow_column (fst (Aggregator.calculate_weekly_metrics Demo.df no_effects)).
Proof.
  apply (C10_scaling_by_power_of_two Demo.df 2 1 no_effects).
  - vm_compute. reflexivity.
  - vm_compute. reflexivity.
Defined.

(** ** Insertion sort *)

Section SortBy.

Variable A : Type.
Variable le : A -> A -> bool.
Hypothesis le_total : forall a b, le a b = false -> le b a = true.

Let R (a b : A) : Prop := le a b = true.

Lemma insert_by_HdRel a x l :
  R a x -> HdRel R a l -> HdRel R a (insert_by le x l).
Proof.
  intros Hax Hal. destruct l as [| y ys]; simpl.
  - now constructor.
  - destruct (le x y); constructor; [exact Hax |].
    now inversion Hal.
Qed.

Lemma insert_by_Sorted x l : Sorted R l -> Sorted R (insert_by le x l).
Proof.
  induction 1 as [| y ys Hys IH Hhd]; simpl.
  - repeat constructor.
  - destruct (le x y) eqn:Hxy.
    + constructor; [now constructor | now constructor].
    + constructor; [exact IH |].
      apply insert_by_HdRel; [now apply le_total | exact Hhd].
Qed.

Lemma sort_by_Sorted l : Sorted R (sort_by le l).
Proof.
  induction l as [| x xs IH]; simpl; [constructor | now apply insert_by_Sorted].
Qed.

End SortBy.

Lemma sort_Anomaly_Count_desc_sorted rows :
  StronglySorted count_desc (Detector.sort_Anomaly_Count_desc rows).
Proof.
  apply Sorted_StronglySorted.
  - intros a b c. unfold count_desc. lia.
  - unfold Detector.sort_Anomaly_Count_desc.
    eapply Sorted_ind with (P := fun l => Sorted count_desc l);
      [constructor | | apply sort_by_Sorted].
    + intros a l _ IH Hhd. constructor; [exact IH |].
      destruct Hhd as [| b l' Hab]; constructor.
      unfold count_desc. now apply Z.leb_le.
    + intros a b H. apply Z.leb_gt in H. apply Z.leb_le. lia.
Qed.

(** ** The detector *)

Lemma no_outlier_filter (df : DataFrame) preds :
  (forall p, In p preds -> p <> -1) ->
  filter (fun rp : Row * Z => (snd rp =? -1)%Z) (combine df preds) = [].
Proof.
  revert preds. induction df as [| r df IH]; intros preds H; [reflexivity |].
  destruct preds as [| p preds]; [reflexivity |]. simpl.
  destruct (Z.eqb_spec p (-1)) as [-> | _].
  - exfalso. exact (H (-1) (or_introl eq_refl) eq_refl).
  - apply IH. intros q Hq. apply H. now right.
Qed.

(** The detector once the model has answered with one label a row. *)
Lemma detect_anomalies_labelled W df preds fx :
  Detector.IsolationForest_fit_predict W 0.05%float 42 (Detector.features_of df)
  = Return preds ->
  length preds = length df ->
  Detector.detect_anomalies W df fx
  = match map fst (filter (fun rp : Row * Z => (snd rp =? -1)%Z) (combine df preds)) with
    | [] =>
        (Return Detector.sentinel,
         printed "   => No anomalies detected by Isolation Forest (Good job!)." fx)
    | r :: rest =>
        let summary :=
          Detector.sort_Anomaly_Count_desc (Detector.group_by_Location W (r :: rest)) in
        (Return summary,
         printed ("   => Anomaly detection found " ++ PyStr.of_nat (length (r :: rest))
                  ++ " outlier(s) in " ++ PyStr.of_nat (length summary)
                  ++ " location(s).") fx)
    end.
Proof.
  intros Hfit Hlen. unfold Detector.detect_anomalies.
  rewrite Hfit. cbv [bind lift]. unfold Detector.with_is_anomaly.
  rewrite Hlen, Nat.eqb_refl. cbv [ret].
  destruct (map fst _); reflexivity.
Qed.

Lemma detect_anomalies_Return W df fx s fx' :
  Detector.detect_anomalies W df fx = (Return s, fx') ->
  s = Detector.sentinel
  \/ exists anomaly_df,
      s = Detector.sort_Anomaly_Count_desc (Detector.group_by_Location W anomaly_df).
Proof.
  unfold Detector.detect_anomalies.
  destruct (Detector.IsolationForest_fit_predict W 0.05%float 42 (Detector.features_of df))
    as [preds | e]; [| discriminate].
  cbv [bind lift]. unfold Detector.with_is_anomaly.
  destruct (length preds =? length df)%nat; [| discriminate].
  cbv [ret].
  destruct (map fst _) as [| r rest]; intros H; inversion H; subst.
  - now left.
  - right. now eexists.
Qed.

(** ** C8 *)

(** C8: when the model answers with one label a record and none of them
    is the outlier label -1, the detector returns, without failing, the
    degenerate summary: exactly one row, with a null location, a count of
    zero and a mean spend of zero. *)
Theorem C8_no_outlier_gives_sentinel W df preds fx :
  Detector.IsolationForest_fit_predict W 0.05%float 42 (Detector.features_of df)
  = Return preds ->
  length preds = length df ->
  (forall p, In p preds -> p <> -1) ->
  Detector.detect_anomalies W df fx
  = (Return [mkSummary None 0 0%float],
     printed "   => No anomalies detected by Isolation Forest (Good job!)." fx).
Proof.
  intros Hfit Hlen Hnone.
  rewrite (detect_anomalies_labelled W df preds fx Hfit Hlen).
  now rewrite no_outlier_filter.
Qed.

(** C8 at the three unremarkable rows of [Demo.quiet]. *)
Lemma C8_no_outlier_witness :
  Detector.detect_anomalies Demo.world Demo.quiet no_effects
  = (Return [mkSummary None 0 0%float],
     printed "   => No anomalies detected by Isolation Forest (Good job!)." no_effects).
Proof.
  apply (C8_no_outlier_gives_sentinel Demo.world Demo.quiet [1; 1; 1] no_effects).
  - reflexivity.
  - reflexivity.
  - intros p [<- | [<- | [<- | []]]]; discriminate.
Defined.

(** ** C5 *)

(** C5 (as stated, refuted): of the forty rows of [Demo.forty] the model
    flags two, the one in Miami and, later in the frame, the one in
    Dallas; the summary lists Miami before Dallas although the counts
    are equal: rows of equal count are not in ascending order of
    location.  They come as the groups were handed out: last first, the
    same frame lists Dallas before Miami. *)
Lemma C5_counterexample_tie_order :
  length Demo.forty = 40%nat
  /\ (exists s fx',
         Detector.detect_anomalies Demo.world Demo.forty no_effects = (Return s, fx')
         /\ s <> Detector.sentinel
         /\ map Summary_Location s = [Some "Miami"; Some "Dallas"]
         /\ map Anomaly_Count s = [1; 1]
         /\ adjacent_by count_then_location s = false)
  /\ (exists s fx',
         Detector.detect_anomalies Demo.reversed_world Demo.forty no_effects
         = (Return s, fx')
         /\ map Summary_Location s = [Some "Dallas"; Some "Miami"]
         /\ map Anomaly_Count s = [1; 1]).
Proof.
  split; [reflexivity |]. split.
  - eexists _, _. split; [vm_compute; reflexivity |].
    split; [discriminate |]. repeat split.
  - eexists _, _. split; [vm_compute; reflexivity |]. split; reflexivity.
Qed.

(** C5 (amended): every summary the detector returns is sorted by anomaly
    count in descending order; the code orders rows of equal count by
    nothing. *)
Theorem C5_summary_sorted_by_count W df fx s fx' :
  Detector.detect_anomalies W df fx = (Return s, fx') ->
  StronglySorted count_desc s.
Proof.
  intros H. apply detect_anomalies_Return in H as [-> | (anomaly_df & ->)].
  - repeat constructor.
  - apply sort_Anomaly_Count_desc_sorted.
Qed.

(** The amended C5 at [Demo.forty]. *)
Lemma C5_summary_sorted_witness :
  StronglySorted count_desc
    [mkSummary (Some "Miami") 1 5000%float; mkSummary (Some "Dallas") 1 7000%float].
Proof.
  apply (C5_summary_sorted_by_count Demo.world Demo.forty no_effects _
           (printed "   => Anomaly detection found 2 outlier(s) in 2 location(s)." no_effects)).
  vm_compute. reflexivity.
Defined.

(** ** C4 *)

(** C4 (as stated, refuted): [detect_anomalies] has no contamination
    parameter.  In a world whose model labels no row an outlier at
    contamination 0, the detector still runs it at 0.05 and reports two
    locations. *)
Lemma C4_counterexample_rate_is_fixed :
  fit_predict Demo.world 0%float 42 (Detector.features_of Demo.df) = Return [1; 1; 1; 1; 1]
  /\ exists s fx',
      Detector.detect_anomalies Demo.world Demo.df no_effects = (Return s, fx')
      /\ s <> Detector.sentinel.
Proof.
  split; [reflexivity |].
  eexists _, _. split; [vm_compute; reflexivity | discriminate].
Qed.

Lemma group_by_Location_ext W1 W2 anomaly_df :
  (forall keys, group_order W1 keys = group_order W2 keys) ->
  Detector.group_by_Location W1 anomaly_df = Detector.group_by_Location W2 anomaly_df.
Proof. intros H. unfold Detector.group_by_Location. now rewrite H. Qed.

(** C4 (amended): the detector takes the dataset alone and fits the model
    with the constants contamination 0.05 and random state 42: two worlds
    whose models agree at these two constants on the features of the
    dataset give the same result, whatever the models do at any other
    contamination. *)
Theorem C4_contamination_is_fixed W1 W2 df fx :
  fit_predict W1 0.05%float 42 (Detector.features_of df)
  = fit_predict W2 0.05%float 42 (Detector.features_of df) ->
  (forall keys, group_order W1 keys = group_order W2 keys) ->
  Detector.detect_anomalies W1 df fx = Detector.detect_anomalies W2 df fx.
Proof.
  intros Hfit Hord. unfold Detector.detect_anomalies.
  assert (Hval : Detector.IsolationForest_fit_predict W1 0.05%float 42 (Detector.features_of df)
                 = Detector.IsolationForest_fit_predict W2 0.05%float 42 (Detector.features_of df)).
  { unfold Detector.IsolationForest_fit_predict.
    destruct (Detector.features_of df); [reflexivity | exact Hfit]. }
  rewrite Hval.
  destruct (Detector.IsolationForest_fit_predict W2 0.05%float 42 (Detector.features_of df))
    as [preds | e]; [| reflexivity].
  cbv [bind lift]. destruct (Detector.with_is_anomaly df preds fx) as [[tagged | e] fx1];
    [| reflexivity].
  destruct (map fst _) as [| r rest]; [reflexivity |].
  now rewrite (group_by_Location_ext W1 W2 (r :: rest) Hord).
Qed.

(** The amended C4 at two worlds whose models differ away from 0.05. *)
Lemma C4_contamination_witness :
  fit_predict Demo.world 0.5%float 42 (Detector.features_of Demo.df)
  <> fit_predict Demo.other_world 0.5%float 42 (Detector.features_of Demo.df)
  /\ Detector.detect_anomalies Demo.world Demo.df no_effects
     = Detector.detect_anomalies Demo.other_world Demo.df no_effects.
Proof.
  split; [vm_compute; discriminate |].
  apply (C4_contamination_is_fixed Demo.world Demo.other_world Demo.df no_effects).
  - reflexivity.
  - reflexivity.
Defined.

(** ** C6 *)

Lemma features_of_width df x : In x (Detector.features_of df) -> length x = 3%nat.
Proof.
  unfold Detector.features_of. intros H. apply in_map_iff in H as (r & <- & _).
  reflexivity.
Qed.

Lemma detect_anomalies_no_rows W fx :
  Detector.detect_anomalies W [] fx = (Raise Detector.no_samples, fx).
Proof. reflexivity. Qed.

(** C6 (as stated, refuted): on a frame without rows the detector does
    raise, yet what it raises is the [ValueError] of the estimator's
    input validation; no exception of the pipeline is an
    [InsufficientDataError]. *)
Lemma C6_counterexample_no_such_error :
  (exists e,
      Detector.detect_anomalies Demo.world [] no_effects = (Raise e, no_effects)
      /\ exn_class_name (exn_cls e) = "ValueError"
      /\ exn_class_name (exn_cls e) <> "InsufficientDataError")
  /\ (forall c, exn_class_name c <> "InsufficientDataError").
Proof.
  split.
  - eexists. split; [reflexivity |]. split; [reflexivity | discriminate].
  - intros []; discriminate.
Qed.

(** C6 (amended): the feature matrix always has three features a row;
    when it has fewer than one row the detector, which checks nothing
    itself, fails with the [ValueError] of the estimator's input
    validation, [transform_and_analyze] fails with it right after the
    weekly metrics, writing no file, and [process_data] ends in its
    handler, which prints it as a general error and returns. *)
Theorem C6_empty_feature_matrix_aborts W df file_path fx :
  (length (Detector.features_of df) < 1)%nat ->
  read_csv W file_path = Return df ->
  (forall x, In x (Detector.features_of df) -> length x = 3%nat)
  /\ exn_cls Detector.no_samples = ValueError
  /\ (forall fx0, Detector.detect_anomalies W df fx0 = (Raise Detector.no_samples, fx0))
  /\ Pipeline.transform_and_analyze W df file_path fx
     = (Raise Detector.no_samples,
        printed "   => Calculated Weekly WoW metrics. (First WoW value will be null/inf)" fx)
  /\ Pipeline.process_data W file_path fx
     = (Return tt,
        printed (Pipeline.general_error_line Detector.no_samples)
          (printed "   => Calculated Weekly WoW metrics. (First WoW value will be null/inf)"
             (Pipeline.ingested file_path df fx))).
Proof.
  intros Hrows Hread.
  assert (Hdf : df = []) by (destruct df; [reflexivity | simpl in Hrows; lia]).
  subst df.
  assert (Htr : forall fx0,
             Pipeline.transform_and_analyze W [] file_path fx0
             = (Raise Detector.no_samples,
                printed "   => Calculated Weekly WoW metrics. (First WoW value will be null/inf)" fx0))
    by reflexivity.
  repeat split.
  - apply features_of_width.
  - unfold Pipeline.process_data, try_except.
    erewrite bind_Return by (unfold lift; rewrite Hread; reflexivity).
    rewrite !bind_print. fold (Pipeline.ingested file_path [] fx).
    now rewrite (bind_Raise _ _ _ _ _ (Htr _)).
Qed.

(** The amended C6 at an empty frame, in [Demo.world]. *)
Lemma C6_empty_feature_matrix_witness :
  (forall fx0, Detector.detect_anomalies Demo.world [] fx0 = (Raise Detector.no_samples, fx0))
  /\ fst (Pipeline.transform_and_analyze Demo.world [] "./input_files/empty.csv" no_effects)
     = Raise Detector.no_samples
  /\ stdout (snd (Pipeline.process_data Demo.world "./input_files/empty.csv" no_effects))
     = (stdout (Pipeline.ingested "./input_files/empty.csv" [] no_effects)
        ++ [ "   => Calculated Weekly WoW metrics. (First WoW value will be null/inf)";
             Pipeline.general_error_line Detector.no_samples ])%list.
Proof.
  destruct (C6_empty_feature_matrix_aborts Demo.world [] "./input_files/empty.csv"
              no_effects) as (_ & _ & Hdet & Htr & Hrun).
  - simpl. lia.
  - reflexivity.
  - split; [exact Hdet |]. split.
    + now rewrite Htr.
    + rewrite Hrun. reflexivity.
Defined.

(** ** C7 *)

(** C7: without a credential ([GEMINI_API_KEY] unset or empty) the
    narrative generator returns the fixed placeholder and leaves every
    effect as it was, so no request reaches the text-generation service;
    with a credential, when the request raises [e], it returns the
    failure text that ends in [str(e)] instead of raising. *)
Theorem C7_narrative_placeholders W summary fx :
  (Analyst.credential_absent W = true ->
   Analyst.generate_analysis W summary fx
   = (Return "AI Analysis placeholder: GEMINI_API_KEY not set. Cannot run analysis.", fx))
  /\ (forall ctx e,
         Analyst.credential_absent W = false ->
         genai_Client W = Return tt ->
         Analyst.fetch_external_context summary fx = (Return ctx, fx) ->
         generate_content W "gemini-2.5-pro"
           (Analyst.prompt_of (write_json W summary) ctx) = Raise e ->
         Analyst.generate_analysis W summary fx
         = (Return ("AI Analysis failed. Please check your API key and connection. Error: "
                    ++ exn_str e),
            Analyst.requested "gemini-2.5-pro"
              (Analyst.prompt_of (write_json W summary) ctx) fx)).
Proof.
  split.
  - intros Habs. unfold Analyst.generate_analysis. now rewrite Habs.
  - intros ctx e Habs Hclient Hctx Hreq.
    unfold Analyst.generate_analysis. rewrite Habs, Hclient.
    cbv [bind lift]. rewrite Hctx.
    unfold try_except, bind, Analyst.models_generate_content. now rewrite Hreq.
Qed.

(** C7 in a world without a credential and in one whose service refuses
    the connection. *)
Lemma C7_narrative_placeholders_witness :
  Analyst.generate_analysis Demo.world Detector.sentinel no_effects
  = (Return "AI Analysis placeholder: GEMINI_API_KEY not set. Cannot run analysis.",
     no_effects)
  /\ fst (Analyst.generate_analysis Demo.keyed_world Detector.sentinel no_effects)
     = Return "AI Analysis failed. Please check your API key and connection. Error: connection refused".
Proof.
  split.
  - apply (proj1 (C7_narrative_placeholders Demo.world Detector.sentinel no_effects)).
    reflexivity.
  - rewrite (proj2 (C7_narrative_placeholders Demo.keyed_world Detector.sentinel no_effects)
               Analyst.no_context Demo.connection_refused);
      reflexivity.
Defined.

(** ** A failure of the report stage *)

(** There is no handler around the report stage: whatever it raises
    after the weekly table, the summary and the narrative have been
    computed, [transform_and_analyze] raises too, and [process_data]
    ends in its handler. *)
Lemma report_failure_is_raised
    W df file_path fx weekly fx1 summary fx2 text fx3 e fx4 :
  read_csv W file_path = Return df ->
  Aggregator.calculate_weekly_metrics df (Pipeline.ingested file_path df fx)
  = (Return weekly, fx1) ->
  Detector.detect_anomalies W df fx1 = (Return summary, fx2) ->
  Analyst.generate_analysis W summary
    (printed "--- Starting Phase 3: AI Analysis and PDF Reporting ---" fx2)
  = (Return text, fx3) ->
  Report.generate_pdf_report W weekly text file_path fx3 = (Raise e, fx4) ->
  Pipeline.transform_and_analyze W df file_path (Pipeline.ingested file_path df fx)
  = (Raise e, fx4)
  /\ Pipeline.process_data W file_path fx = Pipeline.handler file_path e fx4.
Proof.
  intros Hread Hcalc Hdet Hgen Hpdf.
  assert (Htr : Pipeline.transform_and_analyze W df file_path
                  (Pipeline.ingested file_path df fx) = (Raise e, fx4)).
  { unfold Pipeline.transform_and_analyze.
    rewrite (bind_Return _ _ _ _ _ Hcalc), (bind_Return _ _ _ _ _ Hdet), bind_print.
    rewrite (bind_Return _ _ _ _ _ Hgen).
    now apply bind_Raise. }
  split; [exact Htr |].
  unfold Pipeline.process_data, try_except.
  erewrite bind_Return by (unfold lift; rewrite Hread; reflexivity).
  rewrite !bind_print. fold (Pipeline.ingested file_path df fx).
  now rewrite (bind_Raise _ _ _ _ _ Htr).
Qed.

(** ** C1 *)

(** C1 (the code at a failing input): for a frame of one row the change
    of the only bucket is null, its table row raises a [TypeError]
    instead of showing a not-applicable marker, and the run writes no
    file; for a frame whose first week spends nothing the change of the
    second bucket is infinite and its table row shows [inf%]. *)
Theorem C1_undefined_change_is_not_marked :
  (exists b fx1,
      Aggregator.calculate_weekly_metrics Demo.one_row no_effects = (Return [b], fx1)
      /\ WoW_Change_pct b = None
      /\ Report.table_row b no_effects
         = (Raise (Exn TypeError "unsupported format string passed to NoneType.__format__"),
            no_effects))
  /\ fst (Pipeline.transform_and_analyze Demo.world Demo.one_row Demo.csv_path no_effects)
     = Raise (Exn TypeError "unsupported format string passed to NoneType.__format__")
  /\ files (snd (Pipeline.transform_and_analyze Demo.world Demo.one_row Demo.csv_path
                   no_effects)) = []
  /\ (exists b0 b1 fx1,
         Aggregator.calculate_weekly_metrics Demo.idle_week no_effects
         = (Return [b0; b1], fx1)
         /\ WoW_Change_pct b1 = Some infinity
         /\ Report.table_row b1 no_effects
            = (Return "<tr><td>2024-01-08</td><td>$5.00</td><td>inf%</td></tr>", no_effects)).
Proof.
  split.
  { eexists _, _. split; [vm_compute; reflexivity |]. split; reflexivity. }
  split; [vm_compute; reflexivity |].
  split; [vm_compute; reflexivity |].
  eexists _, _, _. split; [vm_compute; reflexivity |].
  split; [reflexivity | vm_compute; reflexivity].
Qed.

(** * Further properties of the code *)

(** ** Requests *)

Lemma keeps_requests_ret {A} (a : A) : keeps_requests (ret a).
Proof. now intros fx. Qed.

Lemma keeps_requests_raise {A} (e : exn) : keeps_requests (@raise A e).
Proof. now intros fx. Qed.

Lemma keeps_requests_lift {A} (o : outcome A) : keeps_requests (lift o).
Proof. now intros fx. Qed.

Lemma keeps_requests_print (line : string) : keeps_requests (print line).
Proof. now intros fx. Qed.

Lemma keeps_requests_bind {A B} (c : Py A) (k : A -> Py B) :
  keeps_requests c -> (forall a, keeps_requests (k a)) -> keeps_requests (bind c k).
Proof.
  intros Hc Hk fx. unfold bind. specialize (Hc fx).
  destruct (c fx) as [[a | e] fx1]; simpl in *.
  - now rewrite Hk.
  - assumption.
Qed.

#[local] Hint Resolve keeps_requests_ret keeps_requests_raise keeps_requests_lift
  keeps_requests_print keeps_requests_bind : effects.

Lemma keeps_requests_at {A} (c : Py A) fx o fx' :
  keeps_requests c -> c fx = (o, fx') -> requests fx' = requests fx.
Proof. intros H E. specialize (H fx). now rewrite E in H. Qed.

Lemma calculate_weekly_metrics_keeps_requests df :
  keeps_requests (Aggregator.calculate_weekly_metrics df).
Proof.
  unfold Aggregator.calculate_weekly_metrics, Aggregator.group_by_dynamic.
  destruct (is_sorted (map Date df)); auto 10 with effects.
Qed.

Lemma detect_anomalies_keeps_requests W df :
  keeps_requests (Detector.detect_anomalies W df).
Proof.
  unfold Detector.detect_anomalies.
  apply keeps_requests_bind; [auto with effects | intros preds].
  apply keeps_requests_bind.
  - unfold Detector.with_is_anomaly.
    destruct (length preds =? length df)%nat; auto with effects.
  - intros tagged.
    destruct (map fst (filter _ tagged)); auto 10 with effects.
Qed.

Lemma mapM_table_row_pure rows fx :
  snd (mapM Report.table_row rows fx) = fx.
Proof.
  induction rows as [| r rows IH]; [reflexivity |].
  simpl. unfold bind at 1. unfold Report.table_row at 1.
  destruct (WoW_Change_pct r); simpl; [| reflexivity].
  unfold bind. destruct (mapM Report.table_row rows fx) as [[ys | e] fx1] eqn:E;
    simpl in *; now subst.
Qed.

Lemma generate_pdf_report_keeps_requests W df_weekly text file_path :
  keeps_requests (Report.generate_pdf_report W df_weekly text file_path).
Proof.
  intros fx. unfold Report.generate_pdf_report, Report.table_rows.
  pose proof (mapM_table_row_pure df_weekly fx) as Hpure.
  unfold bind. destruct (mapM Report.table_row df_weekly fx) as [[rows | e] fx1];
    simpl in Hpure; subst fx1; simpl; [| reflexivity].
  unfold Report.HTML_write_pdf.
  destruct (write_pdf W _ _) as [[] | e]; reflexivity.
Qed.

(** ** The narrative generator *)

(** X1: the narrative generator raises exactly when a credential is set
    and either the client cannot be constructed or the summary has no
    row; a failing or empty answer of the service never makes it
    raise. *)
Theorem generate_analysis_raises_iff W summary fx :
  (exists e fx', Analyst.generate_analysis W summary fx = (Raise e, fx'))
  <-> Analyst.credential_absent W = false
      /\ ((exists e, genai_Client W = Raise e) \/ summary = []).
Proof.
  unfold Analyst.generate_analysis.
  destruct (Analyst.credential_absent W).
  - split; [intros (e & fx' & H); discriminate | intros [H _]; discriminate].
  - destruct (genai_Client W) as [[] | e0] eqn:Hc.
    + cbv [bind lift]. destruct summary as [| r rest].
      * split; [intros _; split; [reflexivity | now right] |].
        intros _. now eexists _, _.
      * split.
        -- intros (e & fx' & H). exfalso. revert H.
           unfold Analyst.fetch_external_context, Analyst.first_row. cbv [bind ret].
           destruct (Anomaly_Count r =? 0)%Z;
             unfold try_except, bind, Analyst.models_generate_content;
             destruct (generate_content W _ _) as [[t |] | e1]; discriminate.
        -- intros [_ [[e He] | He]]; discriminate.
    + split.
      * intros _. split; [reflexivity | left; now exists e0].
      * intros _. now eexists _, _.
Qed.

(** X1 in a world with a credential, at a summary without rows. *)
Lemma generate_analysis_raises_witness :
  exists e fx', Analyst.generate_analysis Demo.keyed_world [] no_effects = (Raise e, fx').
Proof.
  apply (proj2 (generate_analysis_raises_iff Demo.keyed_world [] no_effects)).
  split; [reflexivity | now right].
Defined.

Lemma generate_analysis_effects W summary fx :
  stdout (snd (Analyst.generate_analysis W summary fx)) = stdout fx
  /\ files (snd (Analyst.generate_analysis W summary fx)) = files fx
  /\ at_most_one_request fx (snd (Analyst.generate_analysis W summary fx)).
Proof.
  unfold Analyst.generate_analysis, at_most_one_request.
  destruct (Analyst.credential_absent W); [simpl; auto |].
  destruct (genai_Client W) as [[] | e0]; cbv [bind lift]; [| simpl; auto].
  destruct summary as [| r rest]; [simpl; auto |].
  unfold Analyst.fetch_external_context, Analyst.first_row. cbv [bind ret].
  destruct (Anomaly_Count r =? 0)%Z;
    unfold try_except, bind, Analyst.models_generate_content;
    destruct (generate_content W _ _) as [[t |] | e1]; simpl;
    (split; [reflexivity | split; [reflexivity | right; now eexists]]).
Qed.

(** X2: one call of the narrative generator prints nothing, writes no
    file and sends at most one request, to the model [gemini-2.5-pro]:
    there is no second attempt. *)
Theorem generate_analysis_single_attempt W summary fx :
  stdout (snd (Analyst.generate_analysis W summary fx)) = stdout fx
  /\ files (snd (Analyst.generate_analysis W summary fx)) = files fx
  /\ at_most_one_request fx (snd (Analyst.generate_analysis W summary fx)).
Proof.
  unfold Analyst.generate_analysis, at_most_one_request.
  destruct (Analyst.credential_absent W); [simpl; auto |].
  destruct (genai_Client W) as [[] | e0]; cbv [bind lift]; [| simpl; auto].
  unfold Analyst.fetch_external_context.
  destruct summary as [| r rest]; [simpl; auto |].
  cbv [Analyst.first_row bind ret].
  destruct (Anomaly_Count r =? 0)%Z;
    unfold try_except, bind, Analyst.models_generate_content;
    destruct (generate_content W _ _) as [[t |] | e1]; simpl;
    (split; [reflexivity | split; [reflexivity | right; now eexists]]).
Qed.

(** ** Grouping by location *)

Lemma opt_string_eqb_spec a b : reflect (a = b) (opt_string_eqb a b).
Proof.
  destruct a as [x |], b as [y |]; simpl; try (constructor; congruence).
  destruct (String.eqb_spec x y); constructor; congruence.
Qed.

Lemma distinct_In keys k : In k (distinct keys) <-> In k keys.
Proof.
  induction keys as [| k0 ks IH]; simpl; [reflexivity |].
  rewrite filter_In, IH. split.
  - intros [H | [H _]]; auto.
  - intros [H | H]; [now left |].
    destruct (opt_string_eqb_spec k0 k) as [E | E]; [now left | right; now split].
Qed.

Lemma distinct_NoDup keys : NoDup (distinct keys).
Proof.
  induction keys as [| k0 ks IH]; simpl; constructor.
  - rewrite filter_In. intros [_ H].
    destruct (opt_string_eqb_spec k0 k0); [discriminate | congruence].
  - now apply NoDup_filter.
Qed.

Lemma sort_by_Permutation {A} (le : A -> A -> bool) l : Permutation (sort_by le l) l.
Proof.
  induction l as [| x xs IH]; simpl; [constructor |].
  transitivity (x :: sort_by le xs); [| now constructor].
  clear IH. induction (sort_by le xs) as [| y ys IH]; simpl; [reflexivity |].
  destruct (le x y); [reflexivity |].
  transitivity (y :: x :: ys); [now constructor | constructor].
Qed.

Lemma sum_Permutation (l l' : list Z) :
  Permutation l l' -> fold_right Z.add 0 l = fold_right Z.add 0 l'.
Proof. induction 1; simpl; lia. Qed.

Lemma total_count_Permutation s s' : Permutation s s' -> total_count s = total_count s'.
Proof. intros H. unfold total_count. now apply sum_Permutation, Permutation_map. Qed.

(** The rows of [l] at location [k]. *)
Lemma group_sizes_add_up (l : DataFrame) keys :
  NoDup keys ->
  (forall r, In r l -> In (Location r) keys) ->
  fold_right Z.add 0
    (map (fun k => Z.of_nat (length (filter (fun r => opt_string_eqb (Location r) k) l))) keys)
  = Z.of_nat (length l).
Proof.
  revert l. induction keys as [| k ks IH]; intros l Hnd Hin.
  - destruct l as [| r l]; [reflexivity |]. destruct (Hin r); now left.
  - inversion Hnd as [| ? ? Hk Hks]; subst. cbn [map fold_right].
    assert (Hpart : Z.of_nat (length l)
                    = Z.of_nat (length (filter (fun r => opt_string_eqb (Location r) k) l))
                      + Z.of_nat (length (filter (fun r => negb (opt_string_eqb (Location r) k)) l))).
    { clear. rewrite <- Nat2Z.inj_add. f_equal.
      induction l as [| r l IHl]; [reflexivity |]. simpl.
      destruct (opt_string_eqb (Location r) k); simpl; rewrite IHl; lia. }
    assert (Hsame : forall k', In k' ks ->
              length (filter (fun r => opt_string_eqb (Location r) k')
                        (filter (fun r => negb (opt_string_eqb (Location r) k)) l))
              = length (filter (fun r => opt_string_eqb (Location r) k') l)).
    { intros k' Hk'. clear Hpart IH Hin. induction l as [| r l IHl]; [reflexivity |].
      simpl. destruct (opt_string_eqb_spec (Location r) k) as [E | E]; simpl.
      - destruct (opt_string_eqb_spec (Location r) k') as [E' | E']; [| exact IHl].
        exfalso. apply Hk. congruence.
      - destruct (opt_string_eqb (Location r) k'); simpl; now rewrite IHl. }
    rewrite Hpart. f_equal.
    rewrite <- (IH (filter (fun r => negb (opt_string_eqb (Location r) k)) l) Hks).
    + f_equal. apply map_ext_in. intros k' Hk'. now rewrite Hsame.
    + intros r Hr. apply filter_In in Hr as [Hr Hne].
      destruct (Hin r Hr) as [E | E]; [| exact E].
      destruct (opt_string_eqb_spec (Location r) k); [discriminate | congruence].
Qed.

Lemma group_by_Location_locations W l :
  map Summary_Location (Detector.group_by_Location W l)
  = group_order W (distinct (map Location l)).
Proof.
  unfold Detector.group_by_Location. rewrite map_map. simpl. apply map_id.
Qed.

Lemma group_by_Location_rows W l row :
  In row (Detector.group_by_Location W l) ->
  In (Summary_Location row) (map Location l)
  /\ Anomaly_Count row
     = Z.of_nat (length (filter (fun r => opt_string_eqb (Location r) (Summary_Location row)) l))
  /\ Avg_Anomaly_Spend row
     = Detector.mean_spend (filter (fun r => opt_string_eqb (Location r) (Summary_Location row)) l)
  /\ 1 <= Anomaly_Count row.
Proof.
  unfold Detector.group_by_Location. intros H.
  apply in_map_iff in H as (k & <- & Hk). simpl.
  apply (Permutation_in _ (group_order_perm W _)) in Hk.
  apply (proj1 (distinct_In _ _)) in Hk. repeat split; [exact Hk |].
  apply in_map_iff in Hk as (r & Hr & Hin).
  assert (Hf : In r (filter (fun r0 => opt_string_eqb (Location r0) k) l)).
  { apply filter_In. split; [exact Hin |].
    destruct (opt_string_eqb_spec (Location r) k); [reflexivity | congruence]. }
  destruct (filter _ l); [destruct Hf | simpl; lia].
Qed.

Lemma group_by_Location_total W l :
  total_count (Detector.group_by_Location W l) = Z.of_nat (length l).
Proof.
  unfold total_count, Detector.group_by_Location. rewrite map_map. simpl.
  rewrite <- (group_sizes_add_up l (distinct (map Location l))).
  - apply sum_Permutation, Permutation_map, group_order_perm.
  - apply distinct_NoDup.
  - intros r Hr. apply distinct_In. now apply in_map.
Qed.

(** ** The summary of the detector *)

Lemma detect_anomalies_Return_inv W df fx s fx' :
  Detector.detect_anomalies W df fx = (Return s, fx') ->
  exists preds,
    Detector.IsolationForest_fit_predict W 0.05%float 42 (Detector.features_of df)
    = Return preds
    /\ length preds = length df
    /\ s = match flagged df preds with
           | [] => Detector.sentinel
           | r :: rest =>
               Detector.sort_Anomaly_Count_desc (Detector.group_by_Location W (r :: rest))
           end.
Proof.
  intros H.
  destruct (Detector.IsolationForest_fit_predict W 0.05%float 42 (Detector.features_of df))
    as [preds | e] eqn:Hfit.
  - destruct (Nat.eqb_spec (length preds) (length df)) as [Hlen | Hlen].
    + exists preds. split; [reflexivity | split; [exact Hlen |]].
      rewrite (detect_anomalies_labelled W df preds fx Hfit Hlen) in H.
      unfold flagged. destruct (map fst _); now inversion H.
    + exfalso. revert H. unfold Detector.detect_anomalies. rewrite Hfit.
      cbv [bind lift]. unfold Detector.with_is_anomaly.
      destruct (Nat.eqb_spec (length preds) (length df)); [contradiction | discriminate].
  - exfalso. revert H. unfold Detector.detect_anomalies. rewrite Hfit. discriminate.
Qed.

Lemma summary_rows W l row :
  In row (Detector.sort_Anomaly_Count_desc (Detector.group_by_Location W l)) ->
  In row (Detector.group_by_Location W l).
Proof. apply Permutation_in, sort_by_Permutation. Qed.

Lemma summary_nonempty W r rest :
  Detector.sort_Anomaly_Count_desc (Detector.group_by_Location W (r :: rest)) <> [].
Proof.
  intros H. apply (f_equal (@length _)) in H.
  unfold Detector.sort_Anomaly_Count_desc in H.
  rewrite (Permutation_length (sort_by_Permutation _ _)) in H.
  unfold Detector.group_by_Location in H.
  rewrite length_map, (Permutation_length (group_order_perm W _)) in H.
  discriminate.
Qed.

(** X3: when the model labels every record, the detector returns a
    summary that is never empty, that is the degenerate one-row summary
    exactly when no record is labelled an outlier, and whose counts add
    up to the number of records labelled outliers. *)
Theorem detect_anomalies_summary_accounts_for_outliers W df preds fx :
  Detector.IsolationForest_fit_predict W 0.05%float 42 (Detector.features_of df)
  = Return preds ->
  length preds = length df ->
  exists s fx',
    Detector.detect_anomalies W df fx = (Return s, fx')
    /\ s <> []
    /\ (s = Detector.sentinel <-> flagged df preds = [])
    /\ total_count s = Z.of_nat (length (flagged df preds)).
Proof.
  intros Hfit Hlen.
  rewrite (detect_anomalies_labelled W df preds fx Hfit Hlen).
  fold (flagged df preds). destruct (flagged df preds) as [| r rest].
  - eexists _, _. split; [reflexivity |]. repeat split; discriminate.
  - eexists _, _. split; [reflexivity |].
    split; [apply summary_nonempty |]. split.
    + split; [| discriminate]. intros Hs. exfalso.
      assert (Hin : In (mkSummary None 0 0%float)
                       (Detector.sort_Anomaly_Count_desc
                          (Detector.group_by_Location W (r :: rest))))
        by (cbv zeta; rewrite Hs; now left).
      apply summary_rows, group_by_Location_rows in Hin as (_ & _ & _ & Hge).
      simpl in Hge. lia.
    + cbv zeta. unfold Detector.sort_Anomaly_Count_desc.
      rewrite (total_count_Permutation _ _ (sort_by_Permutation _ _)).
      apply group_by_Location_total.
Qed.

(** X3 at [Demo.df], where two of five records are outliers. *)
Lemma detect_anomalies_summary_witness :
  exists s fx',
    Detector.detect_anomalies Demo.world Demo.df no_effects = (Return s, fx')
    /\ s <> []
    /\ (s = Detector.sentinel <-> flagged Demo.df [1; -1; -1; 1; 1] = [])
    /\ total_count s = 2.
Proof.
  apply (detect_anomalies_summary_accounts_for_outliers
           Demo.world Demo.df [1; -1; -1; 1; 1] no_effects); reflexivity.
Defined.

(** X4: in a summary with outliers the locations are pairwise distinct
    and are exactly the locations of the records labelled outliers; each
    row counts the outlier records of its location, at least one, and
    carries their mean spend rounded to two decimals. *)
Theorem detect_anomalies_rows_describe_locations W df preds fx r rest :
  Detector.IsolationForest_fit_predict W 0.05%float 42 (Detector.features_of df)
  = Return preds ->
  length preds = length df ->
  flagged df preds = r :: rest ->
  exists s fx',
    Detector.detect_anomalies W df fx = (Return s, fx')
    /\ NoDup (map Summary_Location s)
    /\ (forall loc, In loc (map Summary_Location s)
                    <-> exists r', In r' (flagged df preds) /\ Location r' = loc)
    /\ (forall row, In row s ->
          let g := filter (fun r' => opt_string_eqb (Location r') (Summary_Location row))
                          (flagged df preds) in
          Anomaly_Count row = Z.of_nat (length g)
          /\ 1 <= Anomaly_Count row
          /\ Avg_Anomaly_Spend row = Detector.mean_spend g).
Proof.
  intros Hfit Hlen Hfl.
  rewrite (detect_anomalies_labelled W df preds fx Hfit Hlen).
  fold (flagged df preds). rewrite Hfl.
  eexists _, _. split; [reflexivity |]. cbv zeta.
  assert (Hperm : Permutation
                    (map Summary_Location
                       (Detector.sort_Anomaly_Count_desc
                          (Detector.group_by_Location W (r :: rest))))
                    (distinct (map Location (r :: rest)))).
  { transitivity (map Summary_Location (Detector.group_by_Location W (r :: rest))).
    - apply Permutation_map, sort_by_Permutation.
    - rewrite group_by_Location_locations. apply group_order_perm. }
  split; [| split].
  - apply (Permutation_NoDup (Permutation_sym Hperm)), distinct_NoDup.
  - intros loc. split.
    + intros H. apply (Permutation_in _ Hperm), distinct_In, in_map_iff in H.
      destruct H as (r' & E & Hr'). now exists r'.
    + intros (r' & Hr' & <-).
      apply (Permutation_in _ (Permutation_sym Hperm)), distinct_In. now apply in_map.
  - intros row Hrow.
    apply summary_rows, group_by_Location_rows in Hrow as (_ & Hc & Ha & Hge).
    now repeat split.
Qed.

(** X4 at [Demo.df]: one row for Miami and one for Dallas. *)
Lemma detect_anomalies_rows_witness :
  exists s fx',
    Detector.detect_anomalies Demo.world Demo.df no_effects = (Return s, fx')
    /\ NoDup (map Summary_Location s)
    /\ (forall loc, In loc (map Summary_Location s)
                    <-> exists r', In r' (flagged Demo.df [1; -1; -1; 1; 1])
                                   /\ Location r' = loc)
    /\ (forall row, In row s ->
          let g := filter (fun r' => opt_string_eqb (Location r') (Summary_Location row))
                          (flagged Demo.df [1; -1; -1; 1; 1]) in
          Anomaly_Count row = Z.of_nat (length g)
          /\ 1 <= Anomaly_Count row
          /\ Avg_Anomaly_Spend row = Detector.mean_spend g).
Proof.
  apply (detect_anomalies_rows_describe_locations
           Demo.world Demo.df [1; -1; -1; 1; 1] no_effects
           (Demo.row 19724 5000 "Miami") [Demo.row 19725 7000 "Dallas"]); reflexivity.
Defined.

(** X5: on whatever summary the detector returns, the context lookup
    never raises and has no effect, and it answers that no context is
    needed exactly when the summary is the degenerate one. *)
Theorem fetch_external_context_on_detector_output W df fx s fx' fx0 :
  Detector.detect_anomalies W df fx = (Return s, fx') ->
  exists ctx,
    Analyst.fetch_external_context s fx0 = (Return ctx, fx0)
    /\ (ctx = Analyst.no_context <-> s = Detector.sentinel).
Proof.
  intros H. apply detect_anomalies_Return_inv in H as (preds & _ & _ & ->).
  destruct (flagged df preds) as [| r rest].
  - exists Analyst.no_context. split; [reflexivity | split; reflexivity].
  - pose proof (summary_nonempty W r rest) as Hne.
    destruct (Detector.sort_Anomaly_Count_desc (Detector.group_by_Location W (r :: rest)))
      as [| row rows] eqn:E; [contradiction |].
    assert (Hge : 1 <= Anomaly_Count row).
    { assert (Hin : In row (Detector.sort_Anomaly_Count_desc
                              (Detector.group_by_Location W (r :: rest))))
        by (rewrite E; now left).
      now apply summary_rows, group_by_Location_rows in Hin as (_ & _ & _ & Hge). }
    unfold Analyst.fetch_external_context, Analyst.first_row. cbv [bind ret].
    destruct (Z.eqb_spec (Anomaly_Count row) 0) as [H0 | _]; [lia |].
    eexists. split; [reflexivity |]. split.
    + intros Hctx. exfalso. revert Hctx. unfold Analyst.no_context. cbn. discriminate.
    + intros Hs. exfalso. unfold Detector.sentinel in Hs. inversion Hs; subst.
      simpl in Hge. lia.
Qed.

(** X5 at [Demo.quiet], whose summary is the degenerate one. *)
Lemma fetch_external_context_witness :
  exists ctx,
    Analyst.fetch_external_context Detector.sentinel no_effects = (Return ctx, no_effects)
    /\ (ctx = Analyst.no_context <-> Detector.sentinel = Detector.sentinel).
Proof.
  apply (fetch_external_context_on_detector_output Demo.world Demo.quiet no_effects
           Detector.sentinel
           (printed "   => No anomalies detected by Isolation Forest (Good job!)." no_effects)).
  reflexivity.
Defined.

(** ** The report stage *)

Lemma mapM_table_row_cases rows fx :
  (all_changes_present rows = true ->
   exists texts, mapM Report.table_row rows fx = (Return texts, fx))
  /\ (all_changes_present rows = false ->
      mapM Report.table_row rows fx
      = (Raise (Exn TypeError "unsupported format string passed to NoneType.__format__"), fx)).
Proof.
  induction rows as [| r rows [IHt IHf]]; simpl.
  - split; [intros _; now eexists | discriminate].
  - unfold bind at 1 3. unfold Report.table_row at 1 3.
    destruct (WoW_Change_pct r) as [x |]; simpl.
    + split.
      * intros H. destruct (IHt H) as (texts & E). unfold bind. rewrite E. now eexists.
      * intros H. unfold bind. now rewrite (IHf H).
    + split; [discriminate | reflexivity].
Qed.

Lemma generate_pdf_report_rows W df_weekly text file_path fx texts :
  mapM Report.table_row df_weekly fx = (Return texts, fx) ->
  Report.generate_pdf_report W df_weekly text file_path fx
  = (Report.HTML_write_pdf W
       (Report.html_of text (String.concat EmptyString texts) (now_strftime W))
       (Report.output_path_of file_path) ;;;
     print (PyStr.newline ++ "✅ PDF Report Generated and Saved to: "
            ++ Report.output_path_of file_path)) fx.
Proof.
  intros E. unfold Report.generate_pdf_report.
  assert (Hrows : Report.table_rows df_weekly fx
                  = (Return (String.concat EmptyString texts), fx)).
  { unfold Report.table_rows. now rewrite (bind_Return _ _ _ _ _ E). }
  now rewrite (bind_Return _ _ _ _ _ Hrows).
Qed.

Lemma generate_pdf_report_null W df_weekly text file_path fx :
  all_changes_present df_weekly = false ->
  Report.generate_pdf_report W df_weekly text file_path fx
  = (Raise (Exn TypeError "unsupported format string passed to NoneType.__format__"), fx).
Proof.
  intros H. unfold Report.generate_pdf_report, Report.table_rows.
  apply bind_Raise, bind_Raise. now apply mapM_table_row_cases.
Qed.

(** X6: the report stage is all or nothing.  It raises a [TypeError] as
    soon as one row of the table has a null change; when it raises, for
    this or for a failure of the renderer, it leaves no file and prints
    nothing; when it returns, every change is present and it has written
    exactly one file, at the derived path, and printed one line. *)
Theorem generate_pdf_report_all_or_nothing W df_weekly text file_path fx :
  (all_changes_present df_weekly = false ->
   exists e, Report.generate_pdf_report W df_weekly text file_path fx = (Raise e, fx)
             /\ exn_cls e = TypeError)
  /\ (forall e fx',
         Report.generate_pdf_report W df_weekly text file_path fx = (Raise e, fx') ->
         fx' = fx)
  /\ (forall fx',
         Report.generate_pdf_report W df_weekly text file_path fx = (Return tt, fx') ->
         all_changes_present df_weekly = true
         /\ exists html,
             write_pdf W html (Report.output_path_of file_path) = Return tt
             /\ files fx' = (files fx ++ [(Report.output_path_of file_path, html)])%list
             /\ stdout fx'
                = (stdout fx
                   ++ [(PyStr.newline ++ "✅ PDF Report Generated and Saved to: "
                        ++ Report.output_path_of file_path)%string])%list
             /\ requests fx' = requests fx).
Proof.
  destruct (all_changes_present df_weekly) eqn:Hall.
  - destruct (proj1 (mapM_table_row_cases df_weekly fx) Hall) as (texts & E).
    rewrite (generate_pdf_report_rows W df_weekly text file_path fx texts E).
    unfold bind, Report.HTML_write_pdf.
    destruct (write_pdf W _ (Report.output_path_of file_path)) as [[] | e0] eqn:Hw.
    + split; [discriminate |].
      split; [intros e fx' H; discriminate |].
      intros fx' H. inversion H; subst. split; [reflexivity |].
      eexists. split; [exact Hw |]. repeat split.
    + split; [discriminate |].
      split; [intros e fx' H; now inversion H | intros fx' H; discriminate].
  - rewrite (generate_pdf_report_null W df_weekly text file_path fx Hall).
    split; [intros _; eexists; split; reflexivity |].
    split; [intros e fx' H; now inversion H | intros fx' H; discriminate].
Qed.

(** X6 at a table of one row without a change, and at an empty table. *)
Lemma generate_pdf_report_witness :
  (exists e, Report.generate_pdf_report Demo.world [mkWeekly 19723 100 None]
               "text" Demo.csv_path no_effects = (Raise e, no_effects)
             /\ exn_cls e = TypeError)
  /\ files (snd (Report.generate_pdf_report Demo.world [] "text" Demo.csv_path no_effects))
     = [("./input_files/data_Report.pdf",
         Report.html_of "text" EmptyString "2024-01-15 09:00:00")].
Proof.
  destruct (generate_pdf_report_all_or_nothing Demo.world [mkWeekly 19723 100 None]
              "text" Demo.csv_path no_effects) as (Hnull & _ & _).
  split; [now apply Hnull |].
  destruct (generate_pdf_report_all_or_nothing Demo.world [] "text" Demo.csv_path
              no_effects) as (_ & _ & Hret).
  destruct (Hret (snd (Report.generate_pdf_report Demo.world [] "text" Demo.csv_path no_effects)))
    as (_ & html & _ & Hfiles & _); [reflexivity |].
  reflexivity.
Defined.

(** ** The path of the report *)

Lemma append_empty_r s : s ++ EmptyString = s.
Proof. induction s as [| c s IH]; simpl; [reflexivity | now rewrite IH]. Qed.

Lemma append_assoc (a b c : string) : (a ++ b) ++ c = a ++ b ++ c.
Proof. induction a as [| x a IH]; simpl; [reflexivity | now rewrite IH]. Qed.

Lemma rsplit_slash_no_slash b :
  has_slash b = false -> PyStr.rsplit_slash b = (EmptyString, b).
Proof.
  induction b as [| c b IH]; simpl; [reflexivity |].
  intros H. apply orb_false_iff in H as [Hc Hb].
  rewrite (IH Hb), Hc. reflexivity.
Qed.

Lemma rsplit_slash_dir d b :
  has_slash b = false ->
  PyStr.rsplit_slash (d ++ String "/"%char b) = (d ++ "/", b).
Proof.
  intros Hb. induction d as [| c d IH].
  - simpl. now rewrite (rsplit_slash_no_slash b Hb).
  - simpl. rewrite IH. destruct d; reflexivity.
Qed.

Lemma all_slashes_dir d :
  d <> EmptyString -> PyStr.ends_with_slash d = false ->
  PyStr.all_slashes (d ++ "/") = false.
Proof.
  induction d as [| c d IH]; [congruence |]. intros _ He.
  destruct d as [| c' d'].
  - simpl in *. now rewrite He.
  - change (String c (String c' d') ++ "/") with (String c (String c' d' ++ "/")).
    cbn [PyStr.all_slashes]. rewrite IH; [apply andb_false_r | discriminate | exact He].
Qed.

Lemma rstrip_slash_dir d :
  d <> EmptyString -> PyStr.ends_with_slash d = false ->
  PyStr.rstrip_slash (d ++ "/") = d.
Proof.
  induction d as [| c d IH]; [congruence |]. intros _ He.
  destruct d as [| c' d'].
  - simpl in *. now rewrite He.
  - change (String c (String c' d') ++ "/") with (String c (String c' d' ++ "/")).
    cbn [PyStr.rstrip_slash]. rewrite IH; [reflexivity | discriminate | exact He].
Qed.

Lemma dirname_dir d b :
  d <> EmptyString -> PyStr.ends_with_slash d = false -> has_slash b = false ->
  PyStr.dirname (d ++ "/" ++ b) = d /\ PyStr.basename (d ++ "/" ++ b) = b.
Proof.
  intros Hd He Hb. unfold PyStr.dirname, PyStr.basename.
  change (d ++ "/" ++ b) with (d ++ String "/"%char b).
  rewrite (rsplit_slash_dir d b Hb). cbn [fst snd].
  rewrite (all_slashes_dir d Hd He), (rstrip_slash_dir d Hd He).
  split; [| reflexivity].
  destruct d; [congruence | reflexivity].
Qed.

Lemma join_dir d b :
  d <> EmptyString -> PyStr.ends_with_slash d = false -> has_slash b = false ->
  PyStr.join d b = d ++ "/" ++ b.
Proof.
  intros Hd He Hb. unfold PyStr.join.
  destruct b as [| c b].
  - destruct d; [congruence |]. now rewrite He.
  - simpl in Hb. apply orb_false_iff in Hb as [Hc _]. rewrite Hc.
    destruct d; [congruence |]. now rewrite He.
Qed.

Lemma replace_csv_free new name tail :
  csv_free name tail = true ->
  PyStr.replace_from ".csv" new 0 (name ++ tail)
  = name ++ PyStr.replace_from ".csv" new 0 tail.
Proof.
  induction name as [| c name IH]; [reflexivity |].
  intros H. cbn [csv_free] in H. apply andb_true_iff in H as [Hp Hf].
  apply negb_true_iff in Hp.
  cbn [append PyStr.replace_from] in *. rewrite Hp. now rewrite (IH Hf).
Qed.

Lemma has_slash_app a b : has_slash (a ++ b) = (has_slash a || has_slash b)%bool.
Proof.
  induction a as [| c a IH]; simpl; [reflexivity |].
  now rewrite IH, orb_assoc.
Qed.

(** X7: for an input [d/name.csv], where the directory [d] is not empty
    and does not end in a slash and the file name holds no slash and no
    earlier [.csv], the report goes to [d/name_Report.pdf], next to the
    input. *)
Theorem output_path_next_to_input d name :
  d <> EmptyString ->
  PyStr.ends_with_slash d = false ->
  has_slash name = false ->
  csv_free name ".csv" = true ->
  Report.output_path_of (d ++ "/" ++ name ++ ".csv") = d ++ "/" ++ name ++ "_Report.pdf".
Proof.
  intros Hd He Hn Hf. unfold Report.output_path_of.
  assert (Hb : has_slash (name ++ ".csv") = false)
    by (rewrite has_slash_app, Hn; reflexivity).
  destruct (dirname_dir d (name ++ ".csv") Hd He Hb) as [-> ->].
  unfold PyStr.replace. rewrite (replace_csv_free _ name ".csv" Hf).
  change (PyStr.replace_from ".csv" "_Report.pdf" 0 ".csv") with "_Report.pdf".
  apply join_dir; [exact Hd | exact He |].
  rewrite has_slash_app, Hn. reflexivity.
Qed.

(** X7 at [./input_files/data.2024.csv]. *)
Lemma output_path_next_to_input_witness :
  Report.output_path_of ("./input_files" ++ "/" ++ "data.2024" ++ ".csv")
  = "./input_files" ++ "/" ++ "data.2024" ++ "_Report.pdf".
Proof.
  apply (output_path_next_to_input "./input_files" "data.2024");
    [discriminate | reflexivity | reflexivity | reflexivity].
Defined.

(** X8: when the file name holds no lower-case [.csv] at all, as with an
    upper-case extension, the derived report path is the path of the
    input itself. *)
Theorem output_path_is_input_without_lowercase_csv d name :
  d <> EmptyString ->
  PyStr.ends_with_slash d = false ->
  has_slash name = false ->
  csv_free name EmptyString = true ->
  Report.output_path_of (d ++ "/" ++ name) = d ++ "/" ++ name.
Proof.
  intros Hd He Hn Hf. unfold Report.output_path_of.
  destruct (dirname_dir d name Hd He Hn) as [-> ->].
  unfold PyStr.replace.
  pose proof (replace_csv_free "_Report.pdf" name EmptyString Hf) as Hr.
  rewrite append_empty_r in Hr. cbn [PyStr.replace_from] in Hr.
  rewrite append_empty_r in Hr. rewrite Hr.
  now apply join_dir.
Qed.

(** X8 at [./input_files/DATA.CSV], an event path the watcher's handler
    lets through. *)
Lemma output_path_is_input_witness :
  Watcher.endswith ".csv" (Watcher.lower ("./input_files" ++ "/" ++ "DATA.CSV")) = true
  /\ Report.output_path_of ("./input_files" ++ "/" ++ "DATA.CSV")
     = "./input_files" ++ "/" ++ "DATA.CSV".
Proof.
  split; [reflexivity |].
  apply (output_path_is_input_without_lowercase_csv "./input_files" "DATA.CSV");
    [discriminate | reflexivity | reflexivity | reflexivity].
Defined.

(** ** The aggregator at its edges *)

Lemma sort_by_nil {A} (le : A -> A -> bool) l : sort_by le l = [] -> l = [].
Proof.
  intros H. apply (f_equal (@length _)) in H.
  rewrite (Permutation_length (sort_by_Permutation le l)) in H.
  now destruct l.
Qed.

Lemma weekly_table_nil df :
  Aggregator.with_wow
    (Aggregator.sort_Date (Aggregator.agg_weekly_spend (Aggregator.windows df))) = []
  <-> df = [].
Proof.
  split; [| now intros ->].
  intros H. apply (f_equal (map Week_Date)) in H. rewrite with_wow_dates in H.
  apply map_eq_nil, sort_by_nil, map_eq_nil in H.
  destruct df as [| r rest]; [reflexivity | now apply windows_nonempty in H].
Qed.

(** X9: the aggregator raises exactly when the [Date] column is not in
    ascending order, and then it prints nothing; when it returns it has
    printed one line, and the table it returns is empty exactly when the
    frame is. *)
Theorem calculate_weekly_metrics_raises_iff_unsorted df fx :
  (is_sorted (map Date df) = false
   <-> exists e, Aggregator.calculate_weekly_metrics df fx = (Raise e, fx))
  /\ (forall weekly fx',
         Aggregator.calculate_weekly_metrics df fx = (Return weekly, fx') ->
         fx' = printed "   => Calculated Weekly WoW metrics. (First WoW value will be null/inf)" fx
         /\ (weekly = [] <-> df = [])).
Proof.
  destruct (is_sorted (map Date df)) eqn:Hs.
  - rewrite (calculate_weekly_metrics_sorted df fx Hs). split.
    + split; [discriminate | intros (e & H); discriminate].
    + intros weekly fx' H. inversion H; subst. split; [reflexivity |].
      apply weekly_table_nil.
  - unfold Aggregator.calculate_weekly_metrics, Aggregator.group_by_dynamic. rewrite Hs.
    split.
    + split; [intros _; now eexists | reflexivity].
    + intros weekly fx' H. discriminate.
Qed.

(** X9 at [Demo.unsorted] and at the empty frame. *)
Lemma calculate_weekly_metrics_edges_witness :
  (exists e, Aggregator.calculate_weekly_metrics Demo.unsorted no_effects
             = (Raise e, no_effects))
  /\ fst (Aggregator.calculate_weekly_metrics [] no_effects) = Return [].
Proof.
  split.
  - apply (proj1 (proj1 (calculate_weekly_metrics_raises_iff_unsorted Demo.unsorted
                           no_effects))).
    reflexivity.
  - destruct (Aggregator.calculate_weekly_metrics [] no_effects) as [[weekly | e] fx'] eqn:E;
      [| discriminate].
    destruct (proj2 (calculate_weekly_metrics_raises_iff_unsorted [] no_effects) weekly fx' E)
      as [_ Hnil].
    simpl. f_equal. now apply Hnil.
Defined.

(** ** Weekly windows and the calendar *)

Lemma week_start_range d :
  PyDate.week_start d <= d < PyDate.week_start d + 7
  /\ (PyDate.week_start d + 3) mod 7 = 0.
Proof.
  unfold PyDate.week_start.
  pose proof (Z.mod_pos_bound (d + 3) 7 ltac:(lia)) as Hb.
  split; [lia |].
  replace (d - (d + 3) mod 7 + 3) with (d + 3 - (d + 3) mod 7) by lia.
  rewrite Zminus_mod, Zmod_mod, Z.sub_diag. reflexivity.
Qed.

Lemma week_start_of_Monday w d :
  (w + 3) mod 7 = 0 -> (PyDate.week_start d = w <-> w <= d < w + 7).
Proof.
  intros Hw. destruct (week_start_range d) as [Hr Hm].
  split; [intros <-; exact Hr |].
  intros Hd.
  apply Z.mod_divide in Hw; [| lia]. apply Z.mod_divide in Hm; [| lia].
  destruct Hw as [a Ha]. destruct Hm as [b Hb]. lia.
Qed.

(** X10: every bucket the aggregator returns is dated on a Monday; the
    rows of the frame dated within the seven days from that Monday are
    at least one, and the spend of the bucket is the sum of their
    spends: a week without rows gives no bucket. *)
Theorem weekly_buckets_are_nonempty_Monday_weeks df fx weekly fx' b :
  Aggregator.calculate_weekly_metrics df fx = (Return weekly, fx') ->
  In b weekly ->
  (Week_Date b + 3) mod 7 = 0
  /\ rows_of_week (Week_Date b) df <> []
  /\ (forall r, In r (rows_of_week (Week_Date b) df)
                <-> In r df /\ Week_Date b <= Date r < Week_Date b + 7)
  /\ Weekly_Spend b = F64.group_sum (map Spend (rows_of_week (Week_Date b) df)).
Proof.
  intros Hcalc Hb.
  apply calculate_weekly_metrics_Return in Hcalc as [Hs ->].
  assert (Hsum := weekly_spend_is_week_sum df b Hs Hb).
  assert (Hkey : In (Week_Date b) (map fst (Aggregator.windows df))).
  { rewrite <- (weekly_dates df Hs). now apply in_map. }
  apply windows_keys in Hkey as (r0 & Hr0 & Hw0).
  assert (Hmon : (Week_Date b + 3) mod 7 = 0)
    by (rewrite <- Hw0; apply week_start_range).
  split; [exact Hmon |]. split.
  - intros Hnil.
    assert (Hin : In r0 (rows_of_week (Week_Date b) df)).
    { unfold rows_of_week. apply filter_In. split; [exact Hr0 |]. now apply Z.eqb_eq. }
    rewrite Hnil in Hin. destruct Hin.
  - split; [| exact Hsum].
    intros r. unfold rows_of_week. rewrite filter_In, Z.eqb_eq.
    now rewrite (week_start_of_Monday _ _ Hmon).
Qed.

(** X10 at the second bucket of [Demo.df]. *)
Lemma weekly_buckets_witness :
  (19730 + 3) mod 7 = 0
  /\ rows_of_week 19730 Demo.df <> []
  /\ (forall r, In r (rows_of_week 19730 Demo.df)
                <-> In r Demo.df /\ 19730 <= Date r < 19730 + 7)
  /\ 230%float = F64.group_sum (map Spend (rows_of_week 19730 Demo.df)).
Proof.
  apply (weekly_buckets_are_nonempty_Monday_weeks Demo.df no_effects
           [mkWeekly 19723 12100 None; mkWeekly 19730 230 (Some (-98.1))%float]
           (printed "   => Calculated Weekly WoW metrics. (First WoW value will be null/inf)"
              no_effects)
           (mkWeekly 19730 230 (Some (-98.1))%float)).
  - vm_compute. reflexivity.
  - right. now left.
Defined.

(** ** The whole run *)

Lemma at_most_one_request_refl fx : at_most_one_request fx fx.
Proof. now left. Qed.

Lemma at_most_one_request_eq fx fx' fx'' :
  requests fx'' = requests fx' -> at_most_one_request fx fx' -> at_most_one_request fx fx''.
Proof. unfold at_most_one_request. intros ->. auto. Qed.

Lemma at_most_one_request_from fx fx0 fx' :
  requests fx0 = requests fx -> at_most_one_request fx0 fx' -> at_most_one_request fx fx'.
Proof. unfold at_most_one_request. intros ->. auto. Qed.

Lemma transform_and_analyze_outcome W df file_path fx :
  exists e fx',
    Pipeline.transform_and_analyze W df file_path fx = (Raise e, fx')
    /\ files fx' = files fx
    /\ at_most_one_request fx fx'.
Proof.
  unfold Pipeline.transform_and_analyze.
  destruct (Aggregator.calculate_weekly_metrics df fx) as [[weekly | e] fx1] eqn:Hcalc;
    pose proof (keeps_files_at _ _ _ _ (calculate_weekly_metrics_keeps_files df) Hcalc) as F1;
    pose proof (keeps_requests_at _ _ _ _ (calculate_weekly_metrics_keeps_requests df) Hcalc) as R1.
  2:{ exists e, fx1. split; [now apply bind_Raise |]. split; [exact F1 | now left]. }
  rewrite (bind_Return _ _ _ _ _ Hcalc).
  destruct (Detector.detect_anomalies W df fx1) as [[summary | e] fx2] eqn:Hdet;
    pose proof (keeps_files_at _ _ _ _ (detect_anomalies_keeps_files W df) Hdet) as F2;
    pose proof (keeps_requests_at _ _ _ _ (detect_anomalies_keeps_requests W df) Hdet) as R2.
  2:{ exists e, fx2. split; [now apply bind_Raise |].
      split; [congruence | left; congruence]. }
  rewrite (bind_Return _ _ _ _ _ Hdet), bind_print. cbv beta.
  match goal with |- context [printed ?l fx2] => set (fx3 := printed l fx2) end.
  assert (F23 : files fx3 = files fx2) by reflexivity.
  assert (R23 : requests fx3 = requests fx2) by reflexivity.
  destruct (generate_analysis_effects W summary fx3) as (_ & F3 & R3).
  destruct (Analyst.generate_analysis W summary fx3) as [[text | e] fx4] eqn:Hgen;
    simpl in F3, R3.
  2:{ exists e, fx4. split; [now apply bind_Raise |].
      split; [congruence |].
      apply (at_most_one_request_from fx fx3); [congruence | exact R3]. }
  rewrite (bind_Return _ _ _ _ _ Hgen).
  assert (Hne : weekly <> []).
  { intros ->. apply calculate_weekly_metrics_Return in Hcalc as [_ Hw].
    symmetry in Hw. apply weekly_table_nil in Hw. subst df.
    rewrite detect_anomalies_no_rows in Hdet. discriminate. }
  destruct (weekly_first_change_null _ _ _ _ Hcalc Hne) as (b & rest & -> & Hnull).
  eexists _, fx4. split.
  - apply bind_Raise. now apply generate_pdf_report_null_change.
  - split; [congruence |].
    apply (at_most_one_request_from fx fx3); [congruence | exact R3].
Qed.

Lemma handler_prints file_path e fx :
  exists fx', Pipeline.handler file_path e fx = (Return tt, fx')
              /\ files fx' = files fx /\ requests fx' = requests fx.
Proof.
  unfold Pipeline.handler. destruct (exn_cls e); now eexists.
Qed.

(** X11: [transform_and_analyze] returns for no dataset at all.  It
    raises an [InvalidOperationError] in the aggregator when the dates
    are not sorted, the estimator's [ValueError] in the detector when the
    frame is empty, and otherwise, at the latest, a [TypeError] in the
    report stage on the null change of the first bucket; it never writes
    a file, and it sends at most one request. *)
Theorem transform_and_analyze_always_raises W df file_path fx :
  exists e fx',
    Pipeline.transform_and_analyze W df file_path fx = (Raise e, fx')
    /\ files fx' = files fx
    /\ at_most_one_request fx fx'
    /\ (is_sorted (map Date df) = false ->
        exn_cls e = InvalidOperationError /\ fx' = fx)
    /\ (df = [] -> e = Detector.no_samples)
    /\ (forall summary fx2 text fx4,
           Detector.detect_anomalies W df
             (printed "   => Calculated Weekly WoW metrics. (First WoW value will be null/inf)" fx)
           = (Return summary, fx2) ->
           Analyst.generate_analysis W summary
             (printed "--- Starting Phase 3: AI Analysis and PDF Reporting ---" fx2)
           = (Return text, fx4) ->
           is_sorted (map Date df) = true ->
           exn_cls e = TypeError /\ fx' = fx4).
Proof.
  destruct (transform_and_analyze_outcome W df file_path fx) as (e & fx' & Htr & F & R).
  exists e, fx'. split; [exact Htr |]. split; [exact F |]. split; [exact R |].
  split; [| split].
  - intros Hs. revert Htr.
    unfold Pipeline.transform_and_analyze, Aggregator.calculate_weekly_metrics,
      Aggregator.group_by_dynamic.
    rewrite Hs. cbv [bind raise]. intros Htr. inversion Htr; subst. now split.
  - intros ->. revert Htr. cbv. intros Htr. now inversion Htr.
  - intros summary fx2 text fx4 Hdet Hgen Hs. revert Htr.
    unfold Pipeline.transform_and_analyze.
    rewrite (bind_Return _ _ _ _ _ (calculate_weekly_metrics_sorted df fx Hs)).
    rewrite (bind_Return _ _ _ _ _ Hdet), bind_print.
    rewrite (bind_Return _ _ _ _ _ Hgen).
    assert (Hne : Aggregator.with_wow
                    (Aggregator.sort_Date
                       (Aggregator.agg_weekly_spend (Aggregator.windows df))) <> []).
    { intros Hw. apply weekly_table_nil in Hw. subst df.
      rewrite detect_anomalies_no_rows in Hdet. discriminate. }
    destruct (weekly_first_change_null _ _ _ _
                (calculate_weekly_metrics_sorted df fx Hs) Hne) as (b & rest & -> & Hnull).
    rewrite (bind_Raise _ _ _ _ _
               (generate_pdf_report_null_change W b rest text file_path fx4 Hnull)).
    intros Htr. inversion Htr; subst. now split.
Qed.

Lemma process_data_outcome W file_path fx :
  exists fx',
    Pipeline.process_data W file_path fx = (Return tt, fx')
    /\ files fx' = files fx
    /\ at_most_one_request fx fx'.
Proof.
  unfold Pipeline.process_data, try_except.
  destruct (read_csv W file_path) as [df | e] eqn:Hread.
  - erewrite bind_Return by reflexivity.
    rewrite !bind_print. fold (Pipeline.ingested file_path df fx).
    destruct (transform_and_analyze_outcome W df file_path
                (Pipeline.ingested file_path df fx)) as (e & fx1 & Htr & F & R).
    rewrite (bind_Raise _ _ _ _ _ Htr).
    destruct (handler_prints file_path e fx1) as (fx2 & Hh & F2 & R2).
    exists fx2. split; [exact Hh |]. split; [now rewrite F2, F |].
    apply (at_most_one_request_eq _ fx1); [exact R2 |].
    apply (at_most_one_request_from fx (Pipeline.ingested file_path df fx));
      [reflexivity | exact R].
  - erewrite bind_Raise by reflexivity.
    destruct (handler_prints file_path e fx) as (fx2 & Hh & F2 & R2).
    exists fx2. split; [exact Hh |]. split; [exact F2 | now left].
Qed.

(** X12: [process_data] never raises: every run ends in its error
    handler, for the exception [e] of the reader or of a stage, and
    returns [None] after printing the error.  It never writes a file, so
    no report is ever produced, and it sends at most one request. *)
Theorem process_data_never_raises_never_writes W file_path fx :
  exists e fx1 fx',
    Pipeline.process_data W file_path fx = Pipeline.handler file_path e fx1
    /\ Pipeline.handler file_path e fx1 = (Return tt, fx')
    /\ (exists line, stdout fx' = (stdout fx1 ++ [line])%list
                     \/ exists line0, stdout fx' = (stdout fx1 ++ [line0; line])%list)
    /\ files fx' = files fx
    /\ at_most_one_request fx fx'.
Proof.
  assert (Hh : forall e fx1,
             exists fx', Pipeline.handler file_path e fx1 = (Return tt, fx')
                         /\ (exists line, stdout fx' = (stdout fx1 ++ [line])%list
                                          \/ exists line0,
                                               stdout fx' = (stdout fx1 ++ [line0; line])%list)
                         /\ files fx' = files fx1 /\ requests fx' = requests fx1).
  { intros e fx1. unfold Pipeline.handler.
    destruct (exn_cls e);
      try (eexists; split; [reflexivity |];
           split; [eexists; left; reflexivity | split; reflexivity]).
    eexists. split; [reflexivity |].
    split; [| split; reflexivity].
    eexists. right. eexists. cbn. rewrite <- app_assoc. reflexivity. }
  unfold Pipeline.process_data, try_except.
  destruct (read_csv W file_path) as [df | e] eqn:Hread.
  - erewrite bind_Return by reflexivity.
    rewrite !bind_print. fold (Pipeline.ingested file_path df fx).
    destruct (transform_and_analyze_outcome W df file_path
                (Pipeline.ingested file_path df fx)) as (e & fx1 & Htr & F & R).
    rewrite (bind_Raise _ _ _ _ _ Htr).
    destruct (Hh e fx1) as (fx2 & Hret & Hout & F2 & R2).
    exists e, fx1, fx2. split; [reflexivity |]. split; [exact Hret |].
    split; [exact Hout |]. split; [now rewrite F2, F |].
    apply (at_most_one_request_eq _ fx1); [exact R2 |].
    apply (at_most_one_request_from fx (Pipeline.ingested file_path df fx));
      [reflexivity | exact R].
  - erewrite bind_Raise by reflexivity.
    destruct (Hh e fx) as (fx2 & Hret & Hout & F2 & R2).
    exists e, fx, fx2. split; [reflexivity |]. split; [exact Hret |].
    split; [exact Hout |]. split; [exact F2 | now left].
Qed.

(** X13: an unreadable file stops the run before any stage: the handler
    prints the two schema lines for a [ComputeError] and the general line
    for any other exception, and nothing else happens. *)
Theorem process_data_unreadable_file W file_path fx e :
  read_csv W file_path = Raise e ->
  Pipeline.process_data W file_path fx
  = (Return tt,
     mkEffects
       (stdout fx
        ++ match exn_cls e with
           | ComputeError =>
               [ (PyStr.newline ++ "❌ ERROR: Schema validation failed for " ++ file_path
                  ++ ". Check data types.")%string;
                 ("Details: " ++ exn_str e)%string ]
           | _ => [ Pipeline.general_error_line e ]
           end)%list
       (files fx) (requests fx)).
Proof.
  intros Hread. unfold Pipeline.process_data, try_except.
  erewrite bind_Raise by (unfold lift; rewrite Hread; reflexivity).
  unfold Pipeline.handler.
  destruct (exn_cls e); try reflexivity.
  rewrite bind_print. unfold print, printed. simpl. now rewrite <- app_assoc.
Qed.

(** X13 at a path [Demo.world] cannot read. *)
Lemma process_data_unreadable_witness :
  stdout (snd (Pipeline.process_data Demo.world "./input_files/bad.csv" no_effects))
  = [ PyStr.newline ++ "❌ ERROR: Schema validation failed for ./input_files/bad.csv. Check data types.";
      "Details: could not parse" ].
Proof.
  rewrite (process_data_unreadable_file Demo.world "./input_files/bad.csv" no_effects
             (Exn ComputeError "could not parse")); reflexivity.
Defined.

(** ** The watcher's handler *)

(** X14: [on_created] never raises and never writes a file; for a
    directory, or for a path that does not end in [.csv] whatever the
    case of its letters, it does nothing at all. *)
Theorem on_created_filters_and_never_raises W event fx :
  exists fx',
    Watcher.on_created W event fx = (Return tt, fx')
    /\ files fx' = files fx
    /\ at_most_one_request fx fx'
    /\ (Watcher.is_directory event = true
        \/ Watcher.endswith ".csv" (Watcher.lower (Watcher.src_path event)) = false ->
        fx' = fx).
Proof.
  unfold Watcher.on_created.
  destruct (Watcher.is_directory event); simpl.
  - exists fx. repeat split; now left.
  - destruct (Watcher.endswith ".csv" (Watcher.lower (Watcher.src_path event))).
    + destruct (process_data_outcome W (Watcher.src_path event) fx)
        as (fx' & H & F & R).
      exists fx'. repeat split; try assumption.
      intros [H0 | H0]; discriminate.
    + exists fx. repeat split; now left.
Qed.

(** X14 at a directory, at a text file and at a CSV file. *)
Lemma on_created_witness :
  snd (Watcher.on_created Demo.world (Watcher.mkEvent true "./input_files/new.csv") no_effects)
  = no_effects
  /\ snd (Watcher.on_created Demo.world (Watcher.mkEvent false "./input_files/notes.txt")
            no_effects)
     = no_effects
  /\ fst (Watcher.on_created Demo.world (Watcher.mkEvent false Demo.csv_path) no_effects)
     = Return tt.
Proof.
  destruct (on_created_filters_and_never_raises Demo.world
              (Watcher.mkEvent true "./input_files/new.csv") no_effects)
    as (fx1 & H1 & _ & _ & Hsame1).
  destruct (on_created_filters_and_never_raises Demo.world
              (Watcher.mkEvent false "./input_files/notes.txt") no_effects)
    as (fx2 & H2 & _ & _ & Hsame2).
  destruct (on_created_filters_and_never_raises Demo.world
              (Watcher.mkEvent false Demo.csv_path) no_effects)
    as (fx3 & H3 & _).
  rewrite H1, H2, H3. cbn [fst snd].
  split; [apply Hsame1; now left |].
  split; [apply Hsame2; now right | reflexivity].
Defined.

(** ** No row is lost or counted twice *)

Lemma windows_concat df : concat (map snd (Aggregator.windows df)) = df.
Proof.
  induction df as [| r rest IH]; [reflexivity |].
  simpl. destruct (Aggregator.windows rest) as [| [w' g] ws].
  - simpl in *. now rewrite <- IH.
  - destruct (PyDate.week_start (Date r) =? w')%Z; simpl in *; now rewrite IH.
Qed.

(** X15: every record counts in exactly one weekly total.  The rows of
    the weeks of the buckets, taken bucket after bucket, are the rows of
    the frame in their order, and the [Weekly_Spend] column holds the
    sums of their spends. *)
Theorem weekly_buckets_partition_the_frame df fx weekly fx' :
  Aggregator.calculate_weekly_metrics df fx = (Return weekly, fx') ->
  concat (map (fun b => rows_of_week (Week_Date b) df) weekly) = df
  /\ map Weekly_Spend weekly
     = map (fun b => F64.group_sum (map Spend (rows_of_week (Week_Date b) df))) weekly.
Proof.
  intros H. apply calculate_weekly_metrics_Return in H as [Hs ->]. split.
  - rewrite <- (map_map Week_Date (fun w => rows_of_week w df)).
    rewrite (weekly_dates df Hs), map_map.
    rewrite <- (windows_concat df) at 2.
    f_equal. apply map_ext_in. intros [w g] Hin. simpl.
    symmetry. now apply windows_groups.
  - apply map_ext_in. intros b Hb. now apply weekly_spend_is_week_sum.
Qed.

(** X15 at [Demo.df]. *)
Lemma weekly_buckets_partition_witness :
  concat (map (fun b => rows_of_week (Week_Date b) Demo.df)
            [mkWeekly 19723 12100 None; mkWeekly 19730 230 (Some (-98.1))%float])
  = Demo.df
  /\ [12100; 230]%float
     = map (fun b => F64.group_sum (map Spend (rows_of_week (Week_Date b) Demo.df)))
         [mkWeekly 19723 12100 None; mkWeekly 19730 230 (Some (-98.1))%float].
Proof.
  apply (weekly_buckets_partition_the_frame Demo.df no_effects
           [mkWeekly 19723 12100 None; mkWeekly 19730 230 (Some (-98.1))%float]
           (printed "   => Calculated Weekly WoW metrics. (First WoW value will be null/inf)"
              no_effects)).
  vm_compute. reflexivity.
Defined.

(** ** The text of the narrative *)

Lemma append_nil_r (s : string) : (s ++ EmptyString)%string = s.
Proof. induction s as [| c s IH]; simpl; [reflexivity | now rewrite IH]. Qed.

Lemma str_rev_append (a b : string) :
  PyStr.rev (a ++ b) = (PyStr.rev b ++ PyStr.rev a)%string.
Proof.
  induction a as [| x a IH]; simpl.
  - now rewrite append_nil_r.
  - now rewrite IH, append_assoc.
Qed.

Lemma str_rev_involutive (s : string) : PyStr.rev (PyStr.rev s) = s.
Proof.
  induction s as [| c s IH]; simpl; [reflexivity |].
  rewrite str_rev_append, IH. reflexivity.
Qed.

Section FrontFacts.

Variable p1 : ascii -> bool.
Variable p2 : ascii -> ascii -> bool.
Variable p3 : ascii -> ascii -> ascii -> bool.

Lemma strip_front_bounded (n : nat) :
  forall s, (String.length s <= n)%nat ->
    PyStr.front_is_space p1 p2 p3 (PyStr.strip_front p1 p2 p3 s) = false
    /\ exists removed, s = (removed ++ PyStr.strip_front p1 p2 p3 s)%string.
Proof.
  induction n as [| n IH]; intros s Hs.
  - destruct s; [| simpl in Hs; lia]. split; [reflexivity | now exists EmptyString].
  - destruct s as [| c1 r]; [split; [reflexivity | now exists EmptyString] |].
    simpl in Hs. simpl.
    destruct (p1 c1) eqn:E1.
    { destruct (IH r ltac:(lia)) as [Hf [pre Hpre]]. split; [exact Hf |].
      exists (String c1 pre). simpl. now rewrite <- Hpre. }
    destruct r as [| c2 r'].
    { split; [simpl; now rewrite E1 | now exists EmptyString]. }
    simpl in Hs. destruct (p2 c1 c2) eqn:E2.
    { destruct (IH r' ltac:(lia)) as [Hf [pre Hpre]]. split; [exact Hf |].
      exists (String c1 (String c2 pre)). simpl. now rewrite <- Hpre. }
    destruct r' as [| c3 r''].
    { split; [simpl; now rewrite E1, E2 | now exists EmptyString]. }
    simpl in Hs. destruct (p3 c1 c2 c3) eqn:E3.
    { destruct (IH r'' ltac:(lia)) as [Hf [pre Hpre]]. split; [exact Hf |].
      exists (String c1 (String c2 (String c3 pre))). simpl. now rewrite <- Hpre. }
    split; [simpl; now rewrite E1, E2, E3 | now exists EmptyString].
Qed.

Lemma strip_front_clean s :
  PyStr.front_is_space p1 p2 p3 (PyStr.strip_front p1 p2 p3 s) = false.
Proof. exact (proj1 (strip_front_bounded (String.length s) s (le_n _))). Qed.

Lemma strip_front_suffix s :
  exists removed, s = (removed ++ PyStr.strip_front p1 p2 p3 s)%string.
Proof. exact (proj2 (strip_front_bounded (String.length s) s (le_n _))). Qed.

Lemma strip_front_fixed s :
  PyStr.front_is_space p1 p2 p3 s = false -> PyStr.strip_front p1 p2 p3 s = s.
Proof.
  destruct s as [| c1 [| c2 [| c3 r]]]; simpl; intros H;
    repeat (apply orb_false_elim in H; destruct H as [? H]);
    repeat match goal with E : _ = false |- _ => rewrite E; clear E end;
    try rewrite H; reflexivity.
Qed.

Lemma front_of_prefix s t :
  PyStr.front_is_space p1 p2 p3 s = true ->
  PyStr.front_is_space p1 p2 p3 (s ++ t) = true.
Proof.
  destruct s as [| c1 [| c2 [| c3 r]]]; simpl; intros H.
  - discriminate.
  - rewrite orb_false_r in H. now rewrite H.
  - rewrite orb_false_r in H. apply orb_true_iff in H. destruct H as [H | H].
    + now rewrite H.
    + rewrite H, orb_true_r. destruct t; simpl; now rewrite ?orb_true_r.
  - exact H.
Qed.

End FrontFacts.

Lemma lstrip_no_leading_space s : starts_with_space (PyStr.lstrip s) = false.
Proof. apply strip_front_clean. Qed.

Lemma rstrip_no_trailing_space s : ends_with_space (PyStr.rstrip s) = false.
Proof.
  unfold ends_with_space, PyStr.rstrip. rewrite str_rev_involutive.
  apply strip_front_clean.
Qed.

Lemma rstrip_keeps_head s :
  starts_with_space s = false -> starts_with_space (PyStr.rstrip s) = false.
Proof.
  intros H. unfold PyStr.rstrip.
  destruct (strip_front_suffix PyStr.is_space
              (fun c2 c1 => PyStr.is_space2 c1 c2)
              (fun c3 c2 c1 => PyStr.is_space3 c1 c2 c3) (PyStr.rev s))
    as [removed Hs].
  apply (f_equal PyStr.rev) in Hs. rewrite str_rev_involutive, str_rev_append in Hs.
  destruct (starts_with_space (PyStr.rev _)) eqn:E; [| reflexivity].
  apply (front_of_prefix _ _ _ _ (PyStr.rev removed)) in E.
  unfold starts_with_space in H. rewrite Hs in H. congruence.
Qed.

Lemma lstrip_fixed s : starts_with_space s = false -> PyStr.lstrip s = s.
Proof. apply strip_front_fixed. Qed.

Lemma rstrip_fixed s : ends_with_space s = false -> PyStr.rstrip s = s.
Proof.
  intros H. unfold PyStr.rstrip.
  rewrite (strip_front_fixed _ _ _ _ H). apply str_rev_involutive.
Qed.

Lemma strip_trimmed s :
  starts_with_space (PyStr.strip s) = false
  /\ ends_with_space (PyStr.strip s) = false
  /\ PyStr.strip (PyStr.strip s) = PyStr.strip s.
Proof.
  unfold PyStr.strip.
  assert (H1 : starts_with_space (PyStr.rstrip (PyStr.lstrip s)) = false)
    by apply rstrip_keeps_head, lstrip_no_leading_space.
  assert (H2 : ends_with_space (PyStr.rstrip (PyStr.lstrip s)) = false)
    by apply rstrip_no_trailing_space.
  repeat split; [exact H1 | exact H2 |].
  now rewrite (lstrip_fixed _ H1), (rstrip_fixed _ H2).
Qed.

(** X16: with a credential, a client and a summary of at least one row,
    when the service answers with a text the narrative is that text
    without its outer white space, so it neither starts nor ends with
    white space and stripping it again changes nothing; exactly one
    request has been sent, with the prompt built from the summary and
    the context. *)
Theorem generate_analysis_returns_stripped_answer W summary fx ctx answer :
  Analyst.credential_absent W = false ->
  genai_Client W = Return tt ->
  Analyst.fetch_external_context summary fx = (Return ctx, fx) ->
  generate_content W "gemini-2.5-pro" (Analyst.prompt_of (write_json W summary) ctx)
  = Return (Some answer) ->
  exists text,
    Analyst.generate_analysis W summary fx
    = (Return text,
       Analyst.requested "gemini-2.5-pro"
         (Analyst.prompt_of (write_json W summary) ctx) fx)
    /\ text = PyStr.strip answer
    /\ starts_with_space text = false
    /\ ends_with_space text = false
    /\ PyStr.strip text = text.
Proof.
  intros Habs Hclient Hctx Hans.
  exists (PyStr.strip answer). split.
  - unfold Analyst.generate_analysis. rewrite Habs, Hclient.
    cbv [bind lift]. rewrite Hctx.
    unfold try_except, bind, Analyst.models_generate_content. now rewrite Hans.
  - split; [reflexivity | apply strip_trimmed].
Qed.

(** X16 in a world whose service pads its answer with blanks. *)
Lemma generate_analysis_stripped_witness :
  exists text,
    Analyst.generate_analysis Demo.answering_world Detector.sentinel no_effects
    = (Return text,
       Analyst.requested "gemini-2.5-pro"
         (Analyst.prompt_of (write_json Demo.answering_world Detector.sentinel)
            Analyst.no_context) no_effects)
    /\ text = PyStr.strip Demo.padded_answer
    /\ starts_with_space text = false
    /\ ends_with_space text = false
    /\ PyStr.strip text = text.
Proof.
  apply (generate_analysis_returns_stripped_answer Demo.answering_world Detector.sentinel
           no_effects Analyst.no_context Demo.padded_answer); reflexivity.
Defined.

(** ** The context and the top of the summary *)

(** X17: when the detector reports outliers, the context is fetched for
    the location of the first row of the summary, and no row of the
    summary has a higher anomaly count than that one. *)
Theorem fetch_external_context_names_a_top_location W df fx s fx' fx0 :
  Detector.detect_anomalies W df fx = (Return s, fx') ->
  s <> Detector.sentinel ->
  exists row rest,
    s = row :: rest
    /\ (forall x, In x s -> Anomaly_Count x <= Anomaly_Count row)
    /\ Analyst.fetch_external_context s fx0
       = (Return ("External data shows that on the day(s) of the anomaly in **"
                  ++ PyStr.of_opt (Summary_Location row)
                  ++ "**, there was a severe thunderstorm warning, often correlated with low foot traffic and reduced ad conversion rates."),
          fx0).
Proof.
  intros Hdet Hns.
  pose proof (detect_anomalies_Return_inv W df fx s fx' Hdet) as (preds & _ & _ & Hs).
  destruct (flagged df preds) as [| r rest0]; [contradiction |].
  pose proof (summary_nonempty W r rest0) as Hne.
  pose proof (sort_Anomaly_Count_desc_sorted (Detector.group_by_Location W (r :: rest0)))
    as Hsorted.
  rewrite <- Hs in Hne, Hsorted. destruct s as [| row rest]; [contradiction |].
  exists row, rest. split; [reflexivity |].
  inversion Hsorted as [| ? ? _ Hall]; subst.
  split.
  - intros x [<- | Hx]; [lia |].
    rewrite Forall_forall in Hall. exact (Hall x Hx).
  - assert (Hge : 1 <= Anomaly_Count row).
    { assert (Hin : In row (Detector.sort_Anomaly_Count_desc
                              (Detector.group_by_Location W (r :: rest0))))
        by (rewrite <- Hs; now left).
      now apply summary_rows, group_by_Location_rows in Hin as (_ & _ & _ & Hge). }
    unfold Analyst.fetch_external_context, Analyst.first_row. cbv [bind ret].
    destruct (Z.eqb_spec (Anomaly_Count row) 0) as [H0 | _]; [lia | reflexivity].
Qed.

(** X17 at [Demo.df]: the context is about Miami. *)
Lemma fetch_external_context_top_witness :
  exists row rest,
    [mkSummary (Some "Miami") 1 5000%float; mkSummary (Some "Dallas") 1 7000%float]
    = row :: rest
    /\ (forall x,
           In x [mkSummary (Some "Miami") 1 5000%float; mkSummary (Some "Dallas") 1 7000%float]
           -> Anomaly_Count x <= Anomaly_Count row)
    /\ Analyst.fetch_external_context
         [mkSummary (Some "Miami") 1 5000%float; mkSummary (Some "Dallas") 1 7000%float]
         no_effects
       = (Return ("External data shows that on the day(s) of the anomaly in **"
                  ++ PyStr.of_opt (Summary_Location row)
                  ++ "**, there was a severe thunderstorm warning, often correlated with low foot traffic and reduced ad conversion rates."),
          no_effects).
Proof.
  apply (fetch_external_context_names_a_top_location Demo.world Demo.df no_effects _
           (printed "   => Anomaly detection found 2 outlier(s) in 2 location(s)." no_effects)).
  - vm_compute. reflexivity.
  - discriminate.
Defined.

(** X11 at [Demo.unsorted], at the empty frame and at [Demo.one_row]. *)
Lemma transform_and_analyze_always_raises_witness :
  (exists e fx', Pipeline.transform_and_analyze Demo.world Demo.unsorted Demo.csv_path
                   no_effects = (Raise e, fx')
                 /\ exn_cls e = InvalidOperationError /\ fx' = no_effects)
  /\ (exists fx', Pipeline.transform_and_analyze Demo.world [] Demo.csv_path no_effects
                  = (Raise Detector.no_samples, fx'))
  /\ (exists e fx', Pipeline.transform_and_analyze Demo.world Demo.one_row Demo.csv_path
                      no_effects = (Raise e, fx')
                    /\ exn_cls e = TypeError).
Proof.
  split; [| split].
  - destruct (transform_and_analyze_always_raises Demo.world Demo.unsorted Demo.csv_path
                no_effects) as (e & fx' & Htr & _ & _ & Hu & _).
    exists e, fx'. split; [exact Htr |]. now apply Hu.
  - destruct (transform_and_analyze_always_raises Demo.world [] Demo.csv_path
                no_effects) as (e & fx' & Htr & _ & _ & _ & He & _).
    exists fx'. now rewrite <- (He eq_refl).
  - destruct (transform_and_analyze_always_raises Demo.world Demo.one_row Demo.csv_path
                no_effects) as (e & fx' & Htr & _ & _ & _ & _ & Hr).
    exists e, fx'. split; [exact Htr |].
    edestruct Hr as [Hc _];
      [vm_compute; reflexivity | vm_compute; reflexivity | reflexivity | exact Hc].
Defined.
